(** * caption_stack: merging screenshots into one captioned strip

    A shallow embedding of [src/caption_stack.py].  The single function
    [merge_screenshots_with_subtitles] lists a folder, keeps the PNG files,
    sorts them by name, opens them with Pillow, rescales every image to the
    width of the first one, and stacks the bottom band of every later image
    under the first image.

    Python integers are [Z]; Python floats are IEEE binary64 values, taken
    from the Standard Library's [SpecFloat]; Pillow images are records of a
    size and a pixel function; the file system and the console are an
    explicit world threaded through a state-and-exception monad. *)

From Stdlib Require Import ZArith Lia List String Ascii SpecFloat.
From stdpp Require Import base list sorting strings gmap.

Local Open Scope Z_scope.

(** ** Python numbers *)

Module PyNum.

Definition prec : Z := 53.
Definition emax : Z := 1024.

(** A Python number as the function can receive it for [subtitle_ratio]:
    an [int] (the default 6) or a [float] (3.5 in the usage example). *)
Inductive num :=
| PyInt (n : Z)
| PyFloat (f : spec_float).

(** The exceptions the modelled operations raise. *)
Inductive exn :=
| ValueError (msg : string)
| ZeroDivisionError
| OverflowError
| IndexError
| MemoryError
| FileNotFoundError
| IsADirectoryError
| UnidentifiedImageError
| DecompressionBombError
| UnicodeEncodeError
| OSError.

Definition result (A : Type) : Type := exn + A.
Definition Ok {A} (a : A) : result A := inr a.
Definition Raise {A} (e : exn) : result A := inl e.

Definition rbind {A B} (r : result A) (k : A -> result B) : result B :=
  match r with
  | inl e => inl e
  | inr a => k a
  end.

(** The integer [n] held exactly as mantissa and exponent 0; [SFdiv]
    rounds the exact quotient of two such values, which is what
    CPython's [int / int] computes. *)
Definition exact_int (n : Z) : spec_float :=
  match n with
  | Z0 => S754_zero false
  | Zpos p => S754_finite false p 0
  | Zneg p => S754_finite true p 0
  end.

Definition is_infinity (f : spec_float) : bool :=
  match f with S754_infinity _ => true | _ => false end.

Definition is_zero (f : spec_float) : bool :=
  match f with S754_zero _ => true | _ => false end.

(** [float(n)]: the nearest double, [OverflowError] beyond the range. *)
Definition float_of_int (n : Z) : result spec_float :=
  let f := binary_normalize prec emax n 0 false in
  if is_infinity f then Raise OverflowError else Ok f.

(** [a / b] for two ints: correctly rounded true division. *)
Definition int_truediv (a b : Z) : result spec_float :=
  if b =? 0 then Raise ZeroDivisionError
  else
    let f := SFdiv prec emax (exact_int a) (exact_int b) in
    if is_infinity f then Raise OverflowError else Ok f.

(** [a / b] for two floats. *)
Definition float_truediv (x y : spec_float) : result spec_float :=
  if is_zero y then Raise ZeroDivisionError else Ok (SFdiv prec emax x y).

(** [n / r] where [n] is an int and [r] an int or a float. *)
Definition truediv (n : Z) (r : num) : result spec_float :=
  match r with
  | PyInt b => int_truediv n b
  | PyFloat y => rbind (float_of_int n) (fun x => float_truediv x y)
  end.

(** [n * f] where [n] is an int and [f] a float. *)
Definition int_mul_float (n : Z) (f : spec_float) : result spec_float :=
  rbind (float_of_int n) (fun x => Ok (SFmul prec emax x f)).

(** [int(f)]: truncation toward zero. *)
Definition int_of_float (f : spec_float) : result Z :=
  match f with
  | S754_nan => Raise (ValueError "cannot convert float NaN to integer")
  | S754_infinity _ => Raise OverflowError
  | S754_zero _ => Ok 0
  | S754_finite s m e => Ok (cond_Zopp s (Z.shiftl (Zpos m) e))
  end.

(** [math.floor(f)] on a finite float: the largest integer below it. *)
Definition floor_of_float (f : spec_float) : result Z :=
  match f with
  | S754_nan => Raise (ValueError "cannot convert float NaN to integer")
  | S754_infinity _ => Raise OverflowError
  | S754_zero _ => Ok 0
  | S754_finite s m e => Ok (Z.shiftl (cond_Zopp s (Zpos m)) e)
  end.

(** [m * 2^e > k] for a mantissa [m], an exponent [e] and an int [k]. *)
Definition scaled_gt (m : positive) (e k : Z) : bool :=
  if 0 <=? e then k <? Z.shiftl (Zpos m) e
  else Z.shiftl k (- e) <? Zpos m.

(** [m * 2^e < k]. *)
Definition scaled_lt (m : positive) (e k : Z) : bool :=
  if 0 <=? e then Z.shiftl (Zpos m) e <? k
  else Zpos m <? Z.shiftl k (- e).

(** [r > n] for a ratio [r] and an int [n]; Python compares a float and
    an int by their exact values. *)
Definition gt_int (r : num) (n : Z) : bool :=
  match r with
  | PyInt b => n <? b
  | PyFloat (S754_finite s m e) =>
      if s then scaled_lt m e (- n) else scaled_gt m e n
  | PyFloat (S754_zero _) => n <? 0
  | PyFloat (S754_infinity s) => negb s
  | PyFloat S754_nan => false
  end.

(** Every float a Python program holds is a canonical binary64 value. *)
Definition is_double (r : num) : bool :=
  match r with
  | PyInt _ => true
  | PyFloat f => valid_binary prec emax f
  end.

(** [r > 0]. *)
Definition is_positive (r : num) : bool := gt_int r 0.

End PyNum.

Import PyNum.

(** ** Python strings *)

Module PyStr.

(** [str.lower] on one character.  File names are strings of one-byte
    characters; only the ASCII capitals change.  The letters of other
    alphabets, which Python lowers too, never become one of the four
    characters of the extension, so the suffix test below is the same. *)
Definition lower_ascii (c : ascii) : ascii :=
  let n := nat_of_ascii c in
  if (65 <=? n)%nat && (n <=? 90)%nat then ascii_of_nat (n + 32) else c.

Fixpoint lower (s : string) : string :=
  match s with
  | EmptyString => EmptyString
  | String c s' => String (lower_ascii c) (lower s')
  end.

(** [s[n:]] *)
Fixpoint drop (n : nat) (s : string) : string :=
  match n, s with
  | O, _ => s
  | S n', String _ s' => drop n' s'
  | S _, EmptyString => EmptyString
  end.

(** [s.endswith(suffix)] *)
Definition endswith (s suffix : string) : bool :=
  let n := String.length s in
  let k := String.length suffix in
  (k <=? n)%nat && String.eqb (drop (n - k) s) suffix.

End PyStr.

(** ** Paths *)

(** [os.path] as [posixpath] has it. *)
Module OsPath.

(** [os.path.join(a, b)] *)
Definition join (a b : string) : string :=
  if String.prefix "/" b then b
  else if String.eqb a EmptyString || PyStr.endswith a "/" then (a ++ b)%string
  else (a ++ "/" ++ b)%string.

Fixpoint has_sep (s : string) : bool :=
  match s with
  | EmptyString => false
  | String c s' => Ascii.eqb c "/" || has_sep s'
  end.

(** The name under which [path] is an entry of [folder]: the [name]
    without separator for which [join folder name] is [path], if there is
    one.  Two spellings of one folder are two folders here. *)
Definition entry (folder path : string) : option string :=
  let stem := join folder EmptyString in
  if String.prefix stem path then
    let name := PyStr.drop (String.length stem) path in
    if String.eqb name EmptyString || has_sep name then None else Some name
  else None.

End OsPath.

(** ** The platform *)

(** The four lines printed at the end, before formatting. *)
Inductive Output :=
| PrintFiles (image_files : list string)
| PrintSaved (output_path : string)
| PrintSize (target_width total_height : Z)
| PrintSubtitle (subtitle_height : Z) (subtitle_ratio : num).

(** The Pillow operations that build an image of a requested size. *)
Inductive Operation :=
| NewImage
| Resize
| Crop.

(** What the machine and the installed Pillow decide, and the program
    does not.  Pillow needs memory for the pixels of an image and refuses
    what it takes for a decompression bomb: [refusal op w h] is the
    exception that ends operation [op] when it is asked for [w] by [h]
    pixels and does not grant them.  The console encodes what is printed:
    [encodes o] tells whether it can encode the line [o], whose text is
    Chinese and holds the file names or the output path. *)
Class Platform := {
  refusal : Operation -> Z -> Z -> option exn;
  encodes : Output -> bool
}.

(** ** Pillow images *)

(** Pillow is a library the program imports.  The five operations the
    program calls are modelled as Pillow performs them: sizes are checked
    where Pillow checks them, a crop may reach outside the image, a paste
    is clipped to the canvas. *)
Module PIL.

Inductive Pixel := RGB (r g b : Z).

Definition white : Pixel := RGB 255 255 255.
Definition black : Pixel := RGB 0 0 0.

(** Pillow passes sizes to its C core as C ints. *)
Definition INT_MAX : Z := 2 ^ 31 - 1.

(** An image as the compositor sees it: its size and the colour of each
    pixel, read in the canvas's mode ['RGB'] (pasting converts to the
    canvas mode, so transparency plays no part).  [zero] is the colour of
    the pixel value 0 in the image's own mode: black, or for an image
    with a palette the first entry of the palette. *)
Record Image := mkImage {
  width : Z;
  height : Z;
  px : Z -> Z -> Pixel;
  zero : Pixel
}.

Definition size (im : Image) : Z * Z := (width im, height im).

Definition in_bounds (im : Image) (x y : Z) : bool :=
  (0 <=? x) && (x <? width im) && (0 <=? y) && (y <? height im).

(** Whether the platform grants operation [op] an image of [w] by [h]. *)
Definition accepts `{Platform} (op : Operation) (w h : Z) : bool :=
  match refusal op w h with
  | Some _ => false
  | None => true
  end.

(** [Image.new('RGB', (w, h), color)] *)
Definition new `{Platform} (w h : Z) (color : Pixel) : result Image :=
  if (w <? 0) || (h <? 0)
  then Raise (ValueError "Width and height must be >= 0")
  else if (INT_MAX <? w) || (INT_MAX <? h) then Raise OverflowError
  else
    match refusal NewImage w h with
    | Some e => Raise e
    | None => Ok (mkImage w h (fun _ _ => color) black)
    end.

(** [im.resize((w, h), resample)].  The resampling kernel gives the
    pixels; an image asked for its own size is returned as a copy.
    Pillow reads both numbers as C ints and then compares them with 1.
    The order of the two tests shows only for a size with one number below
    1 and the other above [INT_MAX], which the program never asks for: its
    [w] is the width of an image it has opened, between 1 and [INT_MAX]. *)
Definition resize `{Platform} (kernel : Image -> Z -> Z -> Z -> Z -> Pixel)
    (im : Image) (w h : Z) : result Image :=
  if (w =? width im) && (h =? height im) then Ok im
  else if (w <? 1) || (h <? 1)
  then Raise (ValueError "height and width must be > 0")
  else if (INT_MAX <? w) || (INT_MAX <? h) then Raise OverflowError
  else
    match refusal Resize w h with
    | Some e => Raise e
    | None => Ok (mkImage w h (kernel im w h) (zero im))
    end.

(** The region [(left, upper, right, lower)] of [im]; what lies outside
    [im] is filled with zeros, in the mode of [im]. *)
Definition region (im : Image) (left upper right lower : Z) : Image :=
  mkImage (right - left) (lower - upper)
    (fun x y =>
       if in_bounds im (x + left) (y + upper)
       then px im (x + left) (y + upper)
       else zero im)
    (zero im).

(** [im.crop((left, upper, right, lower))].  Pillow checks the size of
    the region for a decompression bomb before it allocates it; the
    region is not clipped to the image. *)
Definition crop `{Platform} (im : Image) (left upper right lower : Z)
    : result Image :=
  if right <? left
  then Raise (ValueError "Coordinate 'right' is less than 'left'")
  else if lower <? upper
  then Raise (ValueError "Coordinate 'lower' is less than 'upper'")
  else
    match refusal Crop (right - left) (lower - upper) with
    | Some e => Raise e
    | None => Ok (region im left upper right lower)
    end.

(** [canvas.paste(im, (x0, y0))]: the canvas is changed in place, so the
    new canvas is returned; the pasted rectangle is clipped to it. *)
Definition paste (canvas im : Image) (x0 y0 : Z) : Image :=
  mkImage (width canvas) (height canvas)
    (fun x y =>
       if in_bounds canvas x y && in_bounds im (x - x0) (y - y0)
       then px im (x - x0) (y - y0)
       else px canvas x y)
    (zero canvas).

End PIL.

Import PyStr PIL.

(** ** The world: file system and console *)

(** A directory entry: metadata the program never reads, and what
    [Image.open] gives for it: the image, or the exception it raises
    ([UnidentifiedImageError] for a file that is no image,
    [IsADirectoryError] for a folder).  A file whose header is sound and
    whose data are not, which Pillow opens and fails to load later, is not
    among the entries modelled. *)
Record File := mkFile {
  ctime : Z;
  decoded : result Image
}.

(** A directory is its entries in the order [os.listdir] reports them,
    which is arbitrary. *)
Abbreviation Directory := (list (string * File)).

(** The folders by path, the paths that cannot be opened for writing (no
    permission, no such folder), the images saved so far (the latest
    first) and the lines printed so far.  A write that fails half-way is
    not modelled. *)
Record World := mkWorld {
  dirs : gmap string Directory;
  unwritable : list string;
  saved : list (string * Image);
  console : list Output
}.

(** What a call can give back. *)
Inductive PyObj :=
| PyNone
| PyImage (im : Image).

(** State and exceptions. *)
Definition Py (A : Type) : Type := World -> result A * World.

Definition ret {A} (a : A) : Py A := fun w => (Ok a, w).

Definition raise {A} (e : exn) : Py A := fun w => (Raise e, w).

Definition bind {A B} (m : Py A) (k : A -> Py B) : Py B :=
  fun w =>
    match m w with
    | (inl e, w') => (inl e, w')
    | (inr a, w') => k a w'
    end.

Definition lift {A} (r : result A) : Py A := fun w => (r, w).

Notation "'let*' x ':=' m 'in' k" := (bind m (fun x => k))
  (at level 10, x name, m at level 100, k at level 200, only parsing).
Notation "'let+' x ':=' m 'in' k" := (rbind m (fun x => k))
  (at level 10, x name, m at level 100, k at level 200, only parsing).

Fixpoint find_entry (name : string) (d : Directory) : option File :=
  match d with
  | [] => None
  | (n, f) :: d' => if String.eqb n name then Some f else find_entry name d'
  end.

(** The directory once the image [im] is written under [name]: in place
    of the entry of that name, or as a new entry. *)
Fixpoint put (name : string) (im : Image) (d : Directory) : Directory :=
  match d with
  | [] => [(name, mkFile 0 (Ok im))]
  | (n, f) :: d' =>
      if String.eqb n name then (n, mkFile (ctime f) (Ok im)) :: d'
      else (n, f) :: put name im d'
  end.

(** The folders once [im] is written at [path]: the folder that [path]
    lies in, if it is one of them, lists it from now on. *)
Definition written (path : string) (im : Image) (ds : gmap string Directory)
    : gmap string Directory :=
  map_imap
    (fun folder d =>
       Some match OsPath.entry folder path with
            | Some name => put name im d
            | None => d
            end)
    ds.

(** [os.listdir(folder)] *)
Definition os_listdir (folder : string) : Py (list string) :=
  fun w =>
    match dirs w !! folder with
    | Some d => (Ok d.*1, w)
    | None => (Raise FileNotFoundError, w)
    end.

(** [Image.open(os.path.join(folder, name))] for a [name] that
    [os.listdir] gave. *)
Definition Image_open (folder name : string) : Py Image :=
  fun w =>
    match dirs w !! folder with
    | Some d =>
        match find_entry name d with
        | Some f => (decoded f, w)
        | None => (Raise FileNotFoundError, w)
        end
    | None => (Raise FileNotFoundError, w)
    end.

(** [im.save(path, 'PNG')] *)
Definition Image_save (im : Image) (path : string) : Py unit :=
  fun w =>
    if bool_decide (path ∈ unwritable w) then (Raise OSError, w)
    else (Ok tt,
          mkWorld (written path im (dirs w)) (unwritable w)
            ((path, im) :: saved w) (console w)).

(** [print(line)]: the line is encoded for the console, or the encoding
    fails and nothing of it is printed. *)
Definition print `{Platform} (o : Output) : Py unit :=
  fun w =>
    if encodes o
    then (Ok tt, mkWorld (dirs w) (unwritable w) (saved w) (console w ++ [o]))
    else (Raise UnicodeEncodeError, w).

(** ** The compositor *)

(** The message of line 24: the folder needs at least two PNG images. *)
Definition too_few_images : string :=
  "資料夾中至少需要兩張PNG圖片".

Section Compositor.

Context {platform : Platform}.

(** [Image.Resampling.LANCZOS]: the pixels of the resampled image. *)
Variable lanczos : Image -> Z -> Z -> Z -> Z -> Pixel.

(** Line 20: the comprehension's condition. *)
Definition is_png (f : string) : bool := endswith (lower f) ".png".

(** Lines 20-21. *)
Definition png_files (names : list string) : list string :=
  merge_sort String.le (List.filter is_png names).

(** Line 27. *)
Fixpoint open_images (input_folder : string) (image_files : list string)
    : Py (list Image) :=
  match image_files with
  | [] => ret []
  | path :: paths =>
      let* img := Image_open input_folder path in
      let* imgs := open_images input_folder paths in
      ret (img :: imgs)
  end.

(** Lines 37-38. *)
Definition new_height (target_width : Z) (img : Image) : result Z :=
  let+ ratio := int_truediv target_width (width img) in
  let+ scaled := int_mul_float (height img) ratio in
  int_of_float scaled.

(** Lines 35-43: the body of the first loop. *)
Definition normalize (target_width : Z) (img : Image) : result Image :=
  if negb (width img =? target_width) then
    let+ h := new_height target_width img in
    resize lanczos img target_width h
  else Ok img.

(** Lines 34-43: the first loop, over [images[1:]]. *)
Fixpoint resize_rest (target_width : Z) (imgs : list Image)
    : result (list Image) :=
  match imgs with
  | [] => Ok []
  | img :: imgs' =>
      let+ resized_img := normalize target_width img in
      let+ others := resize_rest target_width imgs' in
      Ok (resized_img :: others)
  end.

(** Line 46. *)
Definition subtitle_height_of (first_height : Z) (subtitle_ratio : num)
    : result Z :=
  let+ q := truediv first_height subtitle_ratio in
  int_of_float q.

(** Lines 64-69. *)
Definition subtitle_band (subtitle_height target_width : Z) (img : Image)
    : result Image :=
  crop img 0 (height img - subtitle_height) target_width (height img).

(** Lines 59-72: the second loop, [i] counting from 1. *)
Fixpoint paste_subtitles (new_image : Image)
    (first_height subtitle_height target_width : Z)
    (i : Z) (imgs : list Image) : result Image :=
  match imgs with
  | [] => Ok new_image
  | img :: imgs' =>
      let y_position := first_height + subtitle_height * (i - 1) in
      let+ subtitle := subtitle_band subtitle_height target_width img in
      paste_subtitles (paste new_image subtitle 0 y_position)
        first_height subtitle_height target_width (i + 1) imgs'
  end.

(** What lines 30-72 compute from the opened images. *)
Record Composite := mkComposite {
  new_image : Image;
  target_width : Z;
  total_height : Z;
  subtitle_height : Z
}.

(** Lines 30-72. *)
Definition stack_images (images : list Image) (subtitle_ratio : num)
    : result Composite :=
  match images with
  | [] => Raise IndexError
  | first :: rest =>
      let target_width := width first in
      let+ resized_rest := resize_rest target_width rest in
      let resized_images := first :: resized_rest in
      let+ subtitle_height := subtitle_height_of (height first) subtitle_ratio in
      let total_height :=
        height first + subtitle_height * (Z.of_nat (length resized_images) - 1) in
      let+ blank := new target_width total_height white in
      let new_image := paste blank first 0 0 in
      let+ new_image :=
        paste_subtitles new_image (height first) subtitle_height target_width
          1 resized_rest in
      Ok (mkComposite new_image target_width total_height subtitle_height)
  end.

(** Lines 8-79.  The function has no [return]: it gives back [None]. *)
Definition merge_screenshots_with_subtitles
    (input_folder output_path : string) (subtitle_ratio : num) : Py PyObj :=
  let* names := os_listdir input_folder in
  let image_files := png_files names in
  if (length image_files <? 2)%nat then raise (ValueError too_few_images)
  else
    let* images := open_images input_folder image_files in
    let* c := lift (stack_images images subtitle_ratio) in
    let* _ := Image_save (new_image c) output_path in
    let* _ := print (PrintFiles image_files) in
    let* _ := print (PrintSaved output_path) in
    let* _ := print (PrintSize (target_width c) (total_height c)) in
    let* _ := print (PrintSubtitle (subtitle_height c) subtitle_ratio) in
    ret PyNone.

End Compositor.

(** ** What the specification says, in its own words *)

Module Spec.

(** The small letters and their capitals. *)
Definition small : list ascii :=
  list_ascii_of_string "abcdefghijklmnopqrstuvwxyz".
Definition capitals : list ascii :=
  list_ascii_of_string "ABCDEFGHIJKLMNOPQRSTUVWXYZ".

(** Two characters that are the same when case is ignored: one
    character twice, or a letter and its capital. *)
Definition same_ignoring_case (a b : ascii) : bool :=
  Ascii.eqb a b ||
  existsb
    (fun p => (Ascii.eqb a (fst p) && Ascii.eqb b (snd p)) ||
              (Ascii.eqb a (snd p) && Ascii.eqb b (fst p)))
    (combine small capitals).

Fixpoint eq_ignoring_case (s t : string) : bool :=
  match s, t with
  | EmptyString, EmptyString => true
  | String a s', String b t' =>
      same_ignoring_case a b && eq_ignoring_case s' t'
  | _, _ => false
  end.

(** "ends (case-insensitively) with the image extension" *)
Definition ends_with_ignoring_case (s ext : string) : Prop :=
  exists p e, s = (p ++ e)%string /\ eq_ignoring_case e ext = true.

(** "subtitleHeight = floor(firstImage.height / subtitleRatio)" for a
    ratio that is the fraction [a / b], in exact arithmetic. *)
Definition subtitleHeight (firstHeight a b : Z) : Z := (firstHeight * b) / a.

(** "standard rounding toward nearest integer" of the fraction [a / b],
    halves going up. *)
Definition round_nearest (a b : Z) : Z := (2 * a + b) / (2 * b).

(** "newHeight = round(originalHeight * ratio)" with
    "ratio = targetWidth / originalWidth" *)
Definition newHeight (targetWidth : Z) (img : Image) : Z :=
  round_nearest (height img * targetWidth) (width img).

End Spec.

(** ** Notions used in the statements *)

(** What [open_images] returns in a world whose folder holds [d]. *)
Fixpoint decode_all (d : Directory) (image_files : list string)
    : result (list Image) :=
  match image_files with
  | [] => Ok []
  | path :: paths =>
      match find_entry path d with
      | Some f =>
          let+ im := decoded f in
          let+ imgs := decode_all d paths in
          Ok (im :: imgs)
      | None => Raise FileNotFoundError
      end
  end.

(** The four lines of the report, lines 76-79. *)
Definition report (image_files : list string) (output_path : string)
    (subtitle_ratio : num) (c : Composite) : list Output :=
  [ PrintFiles image_files;
    PrintSaved output_path;
    PrintSize (target_width c) (total_height c);
    PrintSubtitle (subtitle_height c) subtitle_ratio ].

(** The lines that reach the console: those before the first one it
    cannot encode. *)
Fixpoint emitted `{Platform} (lines : list Output) : list Output :=
  match lines with
  | [] => []
  | o :: lines' => if encodes o then o :: emitted lines' else []
  end.

(** What printing [lines] gives back. *)
Definition printed `{Platform} (lines : list Output) : result PyObj :=
  if forallb encodes lines then Ok PyNone else Raise UnicodeEncodeError.

(** The world after a run that saved [im] and printed [lines]. *)
Definition finished (w : World) (output_path : string) (im : Image)
    (lines : list Output) : World :=
  mkWorld (written output_path im (dirs w)) (unwritable w)
    ((output_path, im) :: saved w) (console w ++ lines).

(** The band the second loop takes from [img]. *)
Definition band (subtitle_height target_width : Z) (img : Image) : Image :=
  region img 0 (height img - subtitle_height) target_width (height img).

(** The exact quotient of [h] by the fraction [a / b] stays clear of the
    next integer: it lies below it by at least the 2^53-th part of that
    integer, so that rounding the quotient to a double cannot reach it. *)
Definition clear_of_next (h a b : Z) : Prop :=
  let n := Spec.subtitleHeight h a b in
  (n + 1) * a <= ((n + 1) * a - h * b) * 2 ^ 53.

(** Pillow grants the canvas and the bands: a canvas of [tw] by [total]
    pixels, whose sides fit C ints, and bands of [tw] by [sh] pixels. *)
Definition fits `{Platform} (tw total sh : Z) : Prop :=
  tw <= INT_MAX /\ total <= INT_MAX /\
  accepts NewImage tw total = true /\ accepts Crop tw sh = true.

(** What lines 20-72 compute from what they read of the world: the
    listing of the folder, if it exists; then line 75 with the output
    path locked or not. *)
Definition run_result `{Platform}
    (lanczos : Image -> Z -> Z -> Z -> Z -> Pixel)
    (listing : option Directory) (locked : bool) (subtitle_ratio : num)
    : result (list string * Composite) :=
  match listing with
  | None => Raise FileNotFoundError
  | Some d =>
      let image_files := png_files d.*1 in
      if (length image_files <? 2)%nat then Raise (ValueError too_few_images)
      else
        let+ images := decode_all d image_files in
        let+ c := stack_images lanczos images subtitle_ratio in
        if locked then Raise OSError else Ok (image_files, c)
  end.

(** The names of a directory and what they open to, without the
    metadata. *)
Definition contents (d : Directory) : list (string * result Image) :=
  (fun e => (fst e, decoded (snd e))) <$> d.

(** Two listings of one directory: the same names with the same contents,
    in any order and with any metadata. *)
Definition same_directory (d1 d2 : Directory) : Prop :=
  contents d1 ≡ₚ contents d2.

(** ** Notions used in the proofs about binary64 arithmetic *)

(** A shift record [mrs] approximates the rational [N / D] from below:
    its mantissa is the integer part, and the round bit is set only when
    the fractional part is at least one half. *)
Definition shr_inv (mrs : shr_record) (N D : Z) : Prop :=
  0 <= shr_m mrs /\
  shr_m mrs * D <= N < (shr_m mrs + 1) * D /\
  (shr_r mrs = true -> (2 * shr_m mrs + 1) * D <= 2 * N).

(** A float that truncates to zero: [+0.0] or a positive value below 1. *)
Definition below_one (f : spec_float) : Prop :=
  f = S754_zero false \/
  exists m e, f = S754_finite false m e /\ e < 0 /\ Zpos m < 2 ^ (- e).

(** A float that is not negative: its sign bit, if it has one, is clear. *)
Definition sign_false (f : spec_float) : Prop :=
  match f with
  | S754_zero s | S754_infinity s | S754_finite s _ _ => s = false
  | S754_nan => True
  end.

(** ** A sample folder *)

Module Sample.

(** A platform to run the samples on: Pillow with its default limit of
    178956970 pixels on what it crops, memory for 2^31 pixels, and a
    console that encodes every line. *)
#[export] Instance desktop : Platform := {|
  refusal op w h :=
    match op with
    | Crop => if 178956970 <? w * h then Some DecompressionBombError else None
    | _ => if 2 ^ 31 <? w * h then Some MemoryError else None
    end;
  encodes _ := true
|}.

(** A resampling kernel to run the samples with: nearest neighbour. *)
Definition nearest (im : Image) (w h x y : Z) : Pixel :=
  px im (x * width im / w) (y * height im / h).

Definition img_a : Image := mkImage 4 6 (fun x y => RGB x y 10) black.
Definition img_b : Image := mkImage 4 1 (fun x y => RGB x y 20) black.
Definition img_c : Image := mkImage 2 3 (fun x y => RGB x y 30) black.

(** An image with a palette whose first entry is red. *)
Definition red : Pixel := RGB 255 0 0.
Definition img_p : Image := mkImage 4 1 (fun x y => RGB x y 40) red.

Definition shots : Directory :=
  [ ("b.PNG", mkFile 30 (Ok img_b));
    ("notes.txt", mkFile 5 (Raise UnidentifiedImageError));
    ("c.png", mkFile 10 (Ok img_c));
    ("a.png", mkFile 20 (Ok img_a)) ]%string.

(** The same folder listed in another order, with other time stamps. *)
Definition shots' : Directory :=
  [ ("a.png", mkFile 1 (Ok img_a));
    ("c.png", mkFile 2 (Ok img_c));
    ("notes.txt", mkFile 3 (Raise UnidentifiedImageError));
    ("b.PNG", mkFile 4 (Ok img_b)) ]%string.

Definition lonely : Directory :=
  [ ("a.png", mkFile 20 (Ok img_a));
    ("notes.txt", mkFile 5 (Raise UnidentifiedImageError)) ]%string.

Definition world (d : Directory) : World :=
  mkWorld {[ "shots"%string := d ]} [] [] [].

Definition img_c_resized : Image := mkImage 4 6 (nearest img_c 4 6) black.

(** The doubles 2.0, which is 6 / 3, 3.5, the double quotient 6 / 3.5,
    6.5, and the double nearest to one tenth. *)
Definition two : spec_float := S754_finite false 4503599627370496 (-51).
Definition three_and_a_half : spec_float :=
  S754_finite false 7881299347898368 (-51).
Definition twelve_sevenths : spec_float :=
  S754_finite false 7720456504063707 (-52).
Definition one_tenth : spec_float :=
  S754_finite false 7205759403792794 (-56).
Definition six_and_a_half : spec_float :=
  S754_finite false 7318349394477056 (-50).

Definition run (subtitle_ratio : num) (w : World) : result PyObj * World :=
  merge_screenshots_with_subtitles nearest "shots" "out.png" subtitle_ratio w.

(** The world some time after a first run: what the run saved and
    printed is there, and the folder is listed in another order. *)
Definition later_world : World :=
  mkWorld {[ "shots"%string := shots' ]} []
    (saved (snd (run (PyInt 3) (world shots))))
    (console (snd (run (PyInt 3) (world shots)))).

(** A reference image 800 wide and two later images, 300 by 100 and
    116 by 145. *)
Definition img_ref : Image := mkImage 800 600 (fun _ _ => white) black.
Definition img_wide : Image := mkImage 300 100 (fun _ _ => black) black.
Definition img_odd : Image := mkImage 116 145 (fun _ _ => black) black.

End Sample.

(** ** Degenerate ratios and further sample folders *)

(** [r == 0], for an int or a float of either sign. *)
Definition is_zero_ratio (r : num) : bool :=
  match r with
  | PyInt n => n =? 0
  | PyFloat f => is_zero f
  end.

(** [r != r]: the float NaN. *)
Definition is_nan_ratio (r : num) : bool :=
  match r with
  | PyFloat S754_nan => true
  | _ => false
  end.

Module MoreSamples.

(** A kernel that paints every resampled image black. *)
Definition blackout (im : Image) (w h x y : Z) : Pixel := black.

(** A wide, flat image: 1600 by 1. *)
Definition img_flat : Image := mkImage 1600 1 (fun _ _ => white) black.

(** A reference image with a flat one after it. *)
Definition flat_shots : Directory :=
  [ ("1.png", mkFile 0 (Ok Sample.img_ref));
    ("2.png", mkFile 0 (Ok img_flat)) ]%string.

(** A folder whose second PNG file is no image and whose third is a
    folder. *)
Definition broken : Directory :=
  [ ("a.png", mkFile 0 (Ok Sample.img_a));
    ("b.png", mkFile 0 (Raise UnidentifiedImageError));
    ("c.png", mkFile 0 (Raise IsADirectoryError)) ]%string.

(** Two images of one width. *)
Definition even : Directory :=
  [ ("a.png", mkFile 0 (Ok Sample.img_a));
    ("b.PNG", mkFile 0 (Ok Sample.img_b)) ]%string.

(** A first image with a lower one, which has a palette, after it. *)
Definition palette_shots : Directory :=
  [ ("a.png", mkFile 0 (Ok Sample.img_a));
    ("p.png", mkFile 0 (Ok Sample.img_p)) ]%string.

(** The sample folder without its text file. *)
Definition shots_only : Directory :=
  [ ("b.PNG", mkFile 30 (Ok Sample.img_b)) ]%string ++
  [ ("c.png", mkFile 10 (Ok Sample.img_c));
    ("a.png", mkFile 20 (Ok Sample.img_a)) ]%string.

(** The sample folder in a world where the output path is locked. *)
Definition locked_world : World :=
  mkWorld {[ "shots"%string := Sample.shots ]} ["out.png"%string] [] [].

(** The double nearest to one billionth. *)
Definition one_billionth : spec_float :=
  S754_finite false 4835703278458517 (-82).

(** A narrow, tall image: 1 by 50000. *)
Definition img_thin : Image := mkImage 1 50000 (fun _ _ => white) black.

(** The platform of the samples with a console that cannot encode the
    Chinese text of the report. *)
Definition legacy_console : Platform := {|
  refusal := @refusal Sample.desktop;
  encodes _ := false
|}.

End MoreSamples.

(* ================================================================== *)
(** * Facts about binary64 arithmetic *)

Section FloatFacts.

Lemma digits2_pos_size (p : positive) : digits2_pos p = Pos.size p.
Proof. induction p; simpl; congruence. Qed.

Lemma digits2_pos_lt (p : positive) : Zpos p < 2 ^ Zpos (digits2_pos p).
Proof.
  rewrite digits2_pos_size.
  pose proof (Pos.size_gt p) as H.
  apply Pos2Z.pos_lt_pos in H. by rewrite Pos2Z.inj_pow in H.
Qed.

Lemma digits2_pos_le (p : positive) : 2 ^ (Zpos (digits2_pos p) - 1) <= Zpos p.
Proof.
  rewrite digits2_pos_size.
  pose proof (Pos.size_le p) as H.
  apply Pos2Z.pos_le_pos in H. rewrite Pos2Z.inj_pow in H.
  replace (Zpos (Pos.size p)) with (Z.succ (Zpos (Pos.size p) - 1)) in H by lia.
  rewrite Z.pow_succ_r in H by lia.
  change (Zpos p~0) with (2 * Zpos p) in H. lia.
Qed.

Lemma Zdigits2_le (m k : Z) : 0 <= m < 2 ^ k -> 0 <= k -> Zdigits2 m <= k.
Proof.
  intros [Hm Hlt] Hk. destruct m as [|p|p]; simpl; [lia| |lia].
  pose proof (digits2_pos_le p) as Hle.
  destruct (Z_lt_le_dec k (Zpos (digits2_pos p))) as [Hc|Hc]; [|lia].
  assert (2 ^ k <= 2 ^ (Zpos (digits2_pos p) - 1))
    by (apply Z.pow_le_mono_r; lia).
  lia.
Qed.

Lemma shr_1_inv (mrs : shr_record) (N D : Z) :
  0 < D -> shr_inv mrs N D -> shr_inv (shr_1 mrs) N (2 * D).
Proof.
  intros HD (Hm & Hb & Hr). destruct mrs as [m r s]; simpl in *.
  destruct m as [|[p|p|]|p]; simpl; unfold shr_inv; simpl; lia.
Qed.

Lemma pow2_xO (p : positive) : 2 ^ Zpos p~0 = 2 ^ Zpos p * 2 ^ Zpos p.
Proof. rewrite <- Z.pow_add_r by lia. f_equal. lia. Qed.

Lemma pow2_xI (p : positive) : 2 ^ Zpos p~1 = 2 * (2 ^ Zpos p * 2 ^ Zpos p).
Proof.
  rewrite <- Z.pow_add_r by lia.
  replace (Zpos p~1) with (Z.succ (Zpos p + Zpos p)) by lia.
  by rewrite Z.pow_succ_r by lia.
Qed.

Lemma iter_pos_shr_1_inv (p : positive) :
  forall (mrs : shr_record) (N D : Z),
    0 < D -> shr_inv mrs N D ->
    shr_inv (SpecFloat.iter_pos shr_1 p mrs) N (2 ^ Zpos p * D).
Proof.
  induction p as [p IH|p IH|]; intros mrs N D HD Hinv; simpl SpecFloat.iter_pos.
  - assert (Hp : 0 < 2 ^ Zpos p) by (apply Z.pow_pos_nonneg; lia).
    replace (2 ^ Zpos p~1 * D) with (2 ^ Zpos p * (2 ^ Zpos p * (2 * D)))
      by (rewrite pow2_xI; ring).
    apply IH; [nia|]. apply IH; [lia|]. by apply shr_1_inv.
  - assert (Hp : 0 < 2 ^ Zpos p) by (apply Z.pow_pos_nonneg; lia).
    replace (2 ^ Zpos p~0 * D) with (2 ^ Zpos p * (2 ^ Zpos p * D))
      by (rewrite pow2_xO; ring).
    apply IH; [nia|]. by apply IH.
  - change (2 ^ 1 * D) with (2 * D). by apply shr_1_inv.
Qed.

(** [shr] shifts by [n] places when [n] is positive and not at all
    otherwise; in both cases the invariant follows the scale. *)
Lemma shr_inv_shift (mrs : shr_record) (e n N D : Z) :
  0 < D -> shr_inv mrs N D ->
  exists k, 0 <= k /\ (0 < n -> k = n) /\ (n <= 0 -> k = 0) /\
            snd (shr mrs e n) = e + k /\
            shr_inv (fst (shr mrs e n)) N (2 ^ k * D).
Proof.
  intros HD Hinv. destruct n as [|p|p]; simpl.
  - exists 0. rewrite Z.add_0_r, Z.pow_0_r, Z.mul_1_l.
    split; [lia|]. split; [lia|]. split; [lia|]. by split.
  - exists (Zpos p).
    split; [lia|]. split; [lia|]. split; [lia|]. split; [done|].
    by apply iter_pos_shr_1_inv.
  - exists 0. rewrite Z.add_0_r, Z.pow_0_r, Z.mul_1_l.
    split; [lia|]. split; [lia|]. split; [lia|]. by split.
Qed.

Lemma shr_record_of_loc_m (m : Z) (l : location) :
  shr_m (shr_record_of_loc m l) = m.
Proof. by destruct l as [|[]]. Qed.

Lemma shr_inv_exact (m : Z) :
  0 <= m -> shr_inv (shr_record_of_loc m loc_Exact) m 1.
Proof. intros Hm. unfold shr_inv; simpl. lia. Qed.

Lemma round_nearest_even_cases (mrs : shr_record) :
  let m := round_nearest_even (shr_m mrs) (loc_of_shr_record mrs) in
  m = shr_m mrs \/ (m = shr_m mrs + 1 /\ shr_r mrs = true).
Proof.
  destruct mrs as [m [] []]; simpl; auto.
  destruct (Z.even m); auto.
Qed.

Lemma fexp_nonpos (k : Z) : k <= 0 -> fexp prec emax k <= -53.
Proof. unfold fexp, emin, prec, emax. lia. Qed.

Lemma pow2_pos (k : Z) : 0 <= k -> 0 < 2 ^ k.
Proof. intros. apply Z.pow_pos_nonneg; lia. Qed.

Lemma pow2_split (a b : Z) : 0 <= a -> 0 <= b -> 2 ^ (a + b) = 2 ^ a * 2 ^ b.
Proof. intros. by rewrite Z.pow_add_r. Qed.

(** Cancelling a positive common factor. *)
Lemma mul_le_cancel (a b c : Z) : 0 < c -> a * c <= b * c -> a <= b.
Proof. intros. nia. Qed.

Lemma round_below (m C J A N : Z) (rb : bool) :
  1 < C -> 2 * C <= 2 * J -> 0 < A -> 0 <= m ->
  m * A <= N ->
  (rb = true -> (2 * m + 1) * A <= 2 * N) ->
  N * C <= (C - 1) * (A * J) ->
  (if rb then m + 1 else m) < J.
Proof.
  intros HC HJ HA Hm Hlo Hr Hb.
  destruct rb.
  - specialize (Hr eq_refl).
    assert (H1 : (2 * m + 1) * C * A <= (2 * (C - 1) * J) * A) by nia.
    apply mul_le_cancel in H1; [|done]. nia.
  - assert (H1 : m * C * A <= ((C - 1) * J) * A) by nia.
    apply mul_le_cancel in H1; [|done]. nia.
Qed.

Lemma binary_round_aux_below_one (mx ex : Z) (l : location) (N D : Z) :
  0 < D -> ex <= -53 -> 0 <= mx < 2 ^ (- ex) ->
  shr_inv (shr_record_of_loc mx l) N D ->
  N * 2 ^ 53 <= (2 ^ 53 - 1) * (D * 2 ^ (- ex)) ->
  below_one (binary_round_aux prec emax false mx ex l).
Proof.
  intros HD Hex Hmx Hinv Hb. unfold binary_round_aux, shr_fexp.
  (* first shift *)
  destruct (shr_inv_shift (shr_record_of_loc mx l) ex
              (fexp prec emax (Zdigits2 mx + ex) - ex) N D HD Hinv)
    as (k & Hk0 & Hkpos & Hknp & He1 & Hinv1).
  destruct (shr (shr_record_of_loc mx l) ex _) as [mrs1 e1]; simpl in He1, Hinv1.
  assert (Hdig : Zdigits2 mx + ex <= 0).
  { pose proof (Zdigits2_le mx (- ex) Hmx). lia. }
  assert (He1' : e1 <= -53).
  { pose proof (fexp_nonpos _ Hdig). lia. }
  assert (Hpow : 2 ^ (- ex) = 2 ^ k * 2 ^ (- e1)).
  { rewrite <- pow2_split by lia. f_equal. lia. }
  pose proof (pow2_pos k Hk0) as Hk2.
  assert (HJ : 2 ^ 53 <= 2 ^ (- e1)) by (apply Z.pow_le_mono_r; lia).
  destruct Hinv1 as (Hm1 & [Hlo1 _] & Hr1).
  (* rounding to nearest even *)
  set (m2 := round_nearest_even (shr_m mrs1) (loc_of_shr_record mrs1)).
  assert (Hm2 : 0 <= m2 < 2 ^ (- e1)).
  { pose proof (round_below (shr_m mrs1) (2 ^ 53) (2 ^ (- e1)) (2 ^ k * D) N
                  (shr_r mrs1)) as Hrb.
    assert (Hlt : (if shr_r mrs1 then shr_m mrs1 + 1 else shr_m mrs1) < 2 ^ (- e1)).
    { apply Hrb; try done; lia. }
    destruct (round_nearest_even_cases mrs1) as [Heq|[Heq Hrt]];
      fold m2 in Heq; rewrite Heq.
    - destruct (shr_r mrs1); lia.
    - rewrite Hrt in Hlt. lia. }
  (* second shift *)
  destruct (shr_inv_shift (shr_record_of_loc m2 loc_Exact) e1
              (fexp prec emax (Zdigits2 m2 + e1) - e1) m2 1)
    as (k2 & Hk20 & _ & _ & He2 & Hinv2); [lia|apply shr_inv_exact; lia|].
  destruct (shr (shr_record_of_loc m2 loc_Exact) e1 _) as [mrs2 e2];
    simpl in He2, Hinv2.
  destruct Hinv2 as (Hm3 & [Hlo3 _] & _).
  pose proof (pow2_pos k2 Hk20) as Hk22.
  destruct (shr_m mrs2) as [|m3|m3] eqn:Hm3e; [by left| |lia].
  assert (Hk2lt : k2 < - e1).
  { apply (Z.pow_lt_mono_r_iff 2); [lia|lia|]. nia. }
  assert (Hpow2 : 2 ^ (- e1) = 2 ^ k2 * 2 ^ (- e2)).
  { rewrite <- pow2_split by lia. f_equal. lia. }
  replace (e2 <=? emax - prec) with true
    by (symmetry; apply Z.leb_le; unfold emax, prec; lia).
  right. exists m3, e2. split; [done|]. split; [lia|]. nia.
Qed.

Lemma new_location_inv (my q r : Z) :
  0 < my -> 0 <= q -> 0 <= r < my ->
  shr_inv (shr_record_of_loc q (new_location my r)) (my * q + r) my.
Proof.
  intros Hmy Hq Hr. unfold shr_inv. rewrite shr_record_of_loc_m.
  split; [done|]. split; [nia|].
  unfold new_location, new_location_even, new_location_odd.
  destruct (Z.even my), (r =? 0); simpl; try discriminate.
  - destruct (Z.compare_spec (2 * r) my); simpl; try discriminate; nia.
  - destruct (Z.compare_spec (2 * r + 1) my); simpl; try discriminate; nia.
Qed.

Lemma ratio_below (X Y C : Z) :
  0 < X < Y -> X < C \/ Y <= C -> X * C <= (C - 1) * Y.
Proof. intros. nia. Qed.

(** The quotient of two positive floats [x < y], both with mantissas of
    at most 53 bits, rounds to a double below 1: it is at most
    [1 - 2^-53], which is itself a double. *)
Lemma SFdiv_below_one (mx my : positive) (ex ey : Z) :
  Zpos mx < 2 ^ 53 ->
  ex <= ey \/ Zpos my <= 2 ^ 53 ->
  Zpos mx * 2 ^ (ex - Z.min ex ey) < Zpos my * 2 ^ (ey - Z.min ex ey) ->
  below_one (SFdiv prec emax (S754_finite false mx ex) (S754_finite false my ey)).
Proof.
  intros Hmx Hcase Hlt. simpl SFdiv. unfold SFdiv_core_binary.
  set (a := ex - Z.min ex ey) in *. set (b := ey - Z.min ex ey) in *.
  assert (Ha : 0 <= a) by lia. assert (Hb : 0 <= b) by lia.
  pose proof (pow2_pos a Ha) as Ha2. pose proof (pow2_pos b Hb) as Hb2.
  set (d1 := Zdigits2 (Zpos mx)). set (d2 := Zdigits2 (Zpos my)).
  assert (HD : d1 + ex - (d2 + ey) <= 0).
  { pose proof (digits2_pos_le mx) as H1. pose proof (digits2_pos_lt my) as H2.
    fold (Zdigits2 (Zpos mx)) in H1. fold (Zdigits2 (Zpos my)) in H2.
    fold d1 in H1. fold d2 in H2.
    assert (0 < d1) by (unfold d1; simpl; lia).
    assert (0 < d2) by (unfold d2; simpl; lia).
    assert (H3 : 2 ^ (d1 - 1 + a) < 2 ^ (d2 + b)).
    { rewrite !pow2_split by lia. nia. }
    apply Z.pow_lt_mono_r_iff in H3; lia. }
  set (e' := Z.min (fexp prec emax (d1 + ex - (d2 + ey))) (ex - ey)).
  assert (He' : e' <= -53) by (pose proof (fexp_nonpos _ HD); lia).
  assert (Hs : 0 <= ex - ey - e') by lia.
  match goal with
  | |- context [IntDef.Z.div_eucl ?m _] => set (m' := m)
  end.
  assert (Hm' : m' = Zpos mx * 2 ^ (ex - ey - e')).
  { unfold m'. destruct (ex - ey - e') as [|p|p] eqn:E.
    - by rewrite Z.pow_0_r, Z.mul_1_r.
    - change (IntDef.Z.shiftl (Zpos mx) (Zpos p)) with (Z.shiftl (Zpos mx) (Zpos p)).
      by rewrite Z.shiftl_mul_pow2.
    - lia. }
  change (IntDef.Z.div_eucl m' (Zpos my)) with (Z.div_eucl m' (Zpos my)).
  pose proof (Z_div_mod m' (Zpos my) eq_refl) as Hdiv.
  destruct (Z.div_eucl m' (Zpos my)) as [q r]. destruct Hdiv as [Hqr Hr].
  (* scaled to the smaller exponent: m' * 2^b = mx * 2^a * 2^(-e') *)
  assert (Hsc : m' * 2 ^ b = Zpos mx * 2 ^ a * 2 ^ (- e')).
  { rewrite Hm', <- !Z.mul_assoc, <- !pow2_split by lia. do 2 f_equal. lia. }
  pose proof (pow2_pos (- e')) as He2. specialize (He2 ltac:(lia)).
  assert (Hm'pos : 0 < m').
  { rewrite Hm'. pose proof (pow2_pos _ Hs). nia. }
  assert (Hm'lt : m' < Zpos my * 2 ^ (- e')).
  { apply (Z.mul_lt_mono_pos_r (2 ^ b)); [done|]. rewrite Hsc. nia. }
  assert (Hq : 0 <= q < 2 ^ (- e')) by nia.
  apply (binary_round_aux_below_one q e' _ m' (Zpos my)); try done.
  - rewrite Hqr. apply new_location_inv; lia.
  - assert (HXY : (Zpos mx * 2 ^ a) * 2 ^ 53 <= (2 ^ 53 - 1) * (Zpos my * 2 ^ b)).
    { apply ratio_below; [nia|].
      destruct Hcase as [Hc|Hc].
      - left. replace a with 0 by lia. simpl. lia.
      - destruct (Z_le_gt_dec ex ey).
        + left. replace a with 0 by lia. simpl. lia.
        + right. replace b with 0 by lia. simpl. lia. }
    apply (mul_le_cancel _ _ (2 ^ b)); [done|].
    replace (m' * 2 ^ 53 * 2 ^ b) with (m' * 2 ^ b * 2 ^ 53) by ring.
    rewrite Hsc. nia.
Qed.

(** *** Conversion of small integers is exact *)

Lemma iter_xO_value (p n : positive) :
  Zpos (Pos.iter xO p n) = Zpos p * 2 ^ Zpos n.
Proof.
  induction n as [|n IH] using Pos.peano_ind.
  - simpl. lia.
  - rewrite Pos.iter_succ, Pos2Z.inj_xO, IH, Pos2Z.inj_succ.
    rewrite Z.pow_succ_r by lia. ring.
Qed.

Lemma iter_xO_digits (p n : positive) :
  digits2_pos (Pos.iter xO p n) = (digits2_pos p + n)%positive.
Proof.
  induction n as [|n IH] using Pos.peano_ind.
  - simpl. lia.
  - rewrite Pos.iter_succ. simpl. rewrite IH. lia.
Qed.

Lemma binary_round_aux_canonical (m : positive) (e : Z) :
  Zpos (digits2_pos m) = 53 -> -1074 <= e <= 971 ->
  binary_round_aux prec emax false (Zpos m) e loc_Exact = S754_finite false m e.
Proof.
  intros Hd He. unfold binary_round_aux, shr_fexp. simpl Zdigits2.
  rewrite Hd.
  replace (fexp prec emax (53 + e) - e) with 0
    by (unfold fexp, emin, prec, emax; lia).
  simpl. rewrite Hd.
  replace (fexp prec emax (53 + e) - e) with 0
    by (unfold fexp, emin, prec, emax; lia).
  simpl. replace (e <=? emax - prec) with true; [done|].
  symmetry. apply Z.leb_le. unfold emax, prec. lia.
Qed.

Lemma float_of_int_exact (n : Z) :
  0 < n < 2 ^ 53 ->
  exists mx ex,
    float_of_int n = Ok (S754_finite false mx ex) /\
    ex <= 0 /\ Zpos mx = n * 2 ^ (- ex) /\ Zpos mx < 2 ^ 53.
Proof.
  intros [Hn0 Hn]. destruct n as [|p|p]; try lia.
  unfold float_of_int. simpl binary_normalize. unfold binary_round.
  pose proof (Zdigits2_le (Zpos p) 53) as Hd. simpl in Hd.
  specialize (Hd ltac:(lia) ltac:(lia)).
  set (d := Zpos (digits2_pos p)) in *.
  assert (Hd0 : 0 < d) by (unfold d; lia).
  replace (fexp prec emax (d + 0)) with (d - 53)
    by (unfold fexp, emin, prec, emax; lia).
  unfold shl_align. destruct (d - 53 - 0) as [|k|k] eqn:Hk; try lia.
  - rewrite binary_round_aux_canonical; [|fold d; lia|lia].
    exists p, 0. simpl. split; [done|]. lia.
  - rewrite binary_round_aux_canonical.
    + exists (Pos.iter xO p k), (d - 53). simpl. split; [done|].
      rewrite iter_xO_value. replace (- (d - 53)) with (Zpos k) by lia.
      split; [lia|]. split; [done|].
      pose proof (digits2_pos_lt p) as Hlt. fold d in Hlt.
      replace 53 with (d + Zpos k) by lia.
      rewrite pow2_split by lia. pose proof (pow2_pos (Zpos k)). nia.
    + rewrite iter_xO_digits. fold d in Hk |- *. lia.
    + lia.
Qed.

(** *** Signs *)

Lemma binary_round_aux_sign (m e : Z) (l : location) :
  sign_false (binary_round_aux prec emax false m e l).
Proof.
  unfold binary_round_aux.
  destruct (shr_fexp prec emax m e l) as [mrs1 e1].
  destruct (shr_fexp prec emax _ e1 loc_Exact) as [mrs2 e2].
  destruct (shr_m mrs2); simpl; [done| |done].
  by destruct (_ <=? _).
Qed.

Lemma SFdiv_sign (x y : spec_float) :
  sign_false x -> sign_false y -> sign_false (SFdiv prec emax x y).
Proof.
  destruct x as [sx|sx| |sx mx ex], y as [sy|sy| |sy my ey]; simpl;
    intros Hx Hy; subst; try done.
  destruct (SFdiv_core_binary _ _ _ _ _ _) as [[mz ez] lz].
  apply binary_round_aux_sign.
Qed.

Lemma exact_int_sign (n : Z) : 0 <= n -> sign_false (exact_int n).
Proof. destruct n; simpl; done. Qed.

Lemma float_of_int_sign (n : Z) (x : spec_float) :
  0 <= n -> float_of_int n = Ok x -> sign_false x.
Proof.
  unfold float_of_int. intros Hn.
  destruct (is_infinity _); [done|]. intros [= <-].
  destruct n as [|p|p]; simpl; [done| |lia].
  unfold binary_round. destruct (shl_align _ _ _) as [mz ez].
  apply binary_round_aux_sign.
Qed.

(** A positive mantissa, scaled, is not below an int that is not
    positive. *)
Lemma scaled_lt_nonpos (m : positive) (e k : Z) :
  k <= 0 -> scaled_lt m e k = false.
Proof.
  intros Hk. unfold scaled_lt. destruct (0 <=? e) eqn:He.
  - apply Z.ltb_ge. apply Z.leb_le in He.
    pose proof (proj2 (Z.shiftl_nonneg (Zpos m) e) ltac:(lia)). lia.
  - apply Z.ltb_ge. apply Z.leb_gt in He.
    rewrite Z.shiftl_mul_pow2 by lia.
    pose proof (Z.pow_pos_nonneg 2 (- e) ltac:(lia) ltac:(lia)). nia.
Qed.

Lemma positive_float_sign (y : spec_float) :
  is_positive (PyFloat y) = true -> sign_false y.
Proof.
  unfold is_positive, gt_int.
  destruct y as [s|s| |s m e]; simpl; try done.
  - by destruct s.
  - destruct s; [|done]. by rewrite scaled_lt_nonpos.
Qed.

Lemma truediv_sign (n : Z) (r : num) (q : spec_float) :
  0 <= n -> is_positive r = true -> truediv n r = Ok q -> sign_false q.
Proof.
  intros Hn Hr. destruct r as [b|y]; simpl.
  - unfold int_truediv. destruct (b =? 0); [done|].
    destruct (is_infinity _); [done|]. intros [= <-].
    apply SFdiv_sign; [by apply exact_int_sign|].
    apply exact_int_sign. unfold is_positive in Hr. simpl in Hr. lia.
  - destruct (float_of_int n) as [e|x] eqn:Hx; [done|]. simpl.
    unfold float_truediv. destruct (is_zero y); [done|]. intros [= <-].
    apply SFdiv_sign; [by eapply float_of_int_sign|].
    by apply positive_float_sign.
Qed.

(** On a float that is not negative, [int()] and [math.floor] agree and
    give a natural number. *)
Lemma int_of_float_floor (q : spec_float) :
  sign_false q -> int_of_float q = floor_of_float q.
Proof. destruct q as [s|s| |s m e]; simpl; try done. by intros ->. Qed.

Lemma int_of_float_nonneg (q : spec_float) (k : Z) :
  sign_false q -> int_of_float q = Ok k -> 0 <= k.
Proof.
  destruct q as [s|s| |s m e]; simpl; try done.
  - intros _ [= <-]. lia.
  - intros -> [= <-]. simpl. apply Z.shiftl_nonneg. lia.
Qed.

Lemma below_one_int (q : spec_float) : below_one q -> int_of_float q = Ok 0.
Proof.
  intros [->|(m & e & -> & He & Hm)]; [done|]. simpl. f_equal.
  rewrite Z.shiftl_div_pow2 by lia. apply Z.div_small. lia.
Qed.

Lemma below_one_not_infinity (q : spec_float) :
  below_one q -> is_infinity q = false.
Proof. by intros [->|(m & e & -> & _)]. Qed.

Lemma valid_binary_mantissa (s : bool) (m : positive) (e : Z) :
  valid_binary prec emax (S754_finite s m e) = true -> Zpos m < 2 ^ 53.
Proof.
  simpl. unfold bounded, canonical_mantissa. intros H.
  apply andb_prop in H as [H _]. apply Z.eqb_eq in H.
  pose proof (Zdigits2_le (Zpos m)) as _.
  pose proof (digits2_pos_lt m) as Hlt.
  assert (Hd : Zpos (digits2_pos m) <= 53)
    by (unfold fexp, emin, prec, emax in H; lia).
  assert (2 ^ Zpos (digits2_pos m) <= 2 ^ 53) by (apply Z.pow_le_mono_r; lia).
  lia.
Qed.

(** *** A divisor above the dividend gives a quotient that truncates to 0 *)

Lemma truediv_gt_zero (n : Z) (r : num) :
  0 < n < 2 ^ 53 -> is_double r = true -> gt_int r n = true ->
  exists q, truediv n r = Ok q /\ int_of_float q = Ok 0.
Proof.
  intros Hn Hv Hgt. destruct r as [b|y]; simpl in *.
  - apply Z.ltb_lt in Hgt. unfold int_truediv.
    replace (b =? 0) with false by (symmetry; apply Z.eqb_neq; lia).
    destruct n as [|p|p]; try lia. destruct b as [|pb|pb]; try lia.
    simpl exact_int.
    assert (Hb : below_one (SFdiv prec emax (S754_finite false p 0)
                              (S754_finite false pb 0))).
    { apply SFdiv_below_one; [lia|by left|].
      change (Zpos p * 1 < Zpos pb * 1). lia. }
    rewrite (below_one_not_infinity _ Hb). eexists. split; [done|].
    by apply below_one_int.
  - destruct (float_of_int_exact n Hn) as (mx & ex & -> & Hex & Hmx & Hmx53).
    simpl. unfold float_truediv.
    destruct y as [s|s| |s my ey]; simpl in Hgt; try done.
    + apply Z.ltb_lt in Hgt. lia.
    + destruct s; [done|]. simpl. eexists. split; [done|]. done.
    + destruct s; [by rewrite scaled_lt_nonpos in Hgt by lia|].
      unfold scaled_gt in Hgt. simpl is_zero. cbv iota.
      assert (Hb : below_one (SFdiv prec emax (S754_finite false mx ex)
                                (S754_finite false my ey))).
      { apply SFdiv_below_one; [done| |].
        - right. pose proof (valid_binary_mantissa _ _ _ Hv). lia.
        - pose proof (pow2_pos (- ex) ltac:(lia)) as Hpx.
          destruct (0 <=? ey) eqn:Hey.
          + apply Z.leb_le in Hey. apply Z.ltb_lt in Hgt.
            rewrite Z.shiftl_mul_pow2 in Hgt by lia.
            replace (Z.min ex ey) with ex by lia.
            replace (ex - ex) with 0 by lia.
            replace (ey - ex) with (ey + - ex) by lia.
            rewrite pow2_split, Hmx by lia. simpl. nia.
          + apply Z.leb_gt in Hey. apply Z.ltb_lt in Hgt.
            rewrite Z.shiftl_mul_pow2 in Hgt by lia.
            destruct (Z_le_gt_dec ex ey) as [Hc|Hc].
            * replace (Z.min ex ey) with ex by lia.
              replace (ex - ex) with 0 by lia.
              assert (Hp : 2 ^ (- ex) = 2 ^ (- ey) * 2 ^ (ey - ex)).
              { rewrite <- pow2_split by lia. f_equal. lia. }
              pose proof (pow2_pos (ey - ex) ltac:(lia)).
              rewrite Hmx, Hp. simpl. nia.
            * replace (Z.min ex ey) with ey by lia.
              replace (ey - ey) with 0 by lia.
              assert (Hp : 2 ^ (- ey) = 2 ^ (- ex) * 2 ^ (ex - ey)).
              { rewrite <- pow2_split by lia. f_equal. lia. }
              rewrite Hmx. simpl. rewrite Hp in Hgt. nia. }
      eexists. split; [done|]. by apply below_one_int.
Qed.

(** *** Dividing by an integer gives the integer quotient *)

(** When the exact value lies in [[n, n+1)] and is too far below [n+1] for
    the rounding to reach it, the rounded double still lies in [[n, n+1)]. *)
Lemma binary_round_aux_floor (mx ex : Z) (l : location) (N D n : Z) :
  0 < D -> ex <= 0 -> 1 <= n -> n + 1 <= 2 ^ 53 ->
  shr_inv (shr_record_of_loc mx l) N D ->
  n * (D * 2 ^ (- ex)) <= N < (n + 1) * (D * 2 ^ (- ex)) ->
  Z.max 0 (fexp prec emax (Zdigits2 mx + ex) - ex) <= - ex ->
  D * 2 ^ Z.max 0 (fexp prec emax (Zdigits2 mx + ex) - ex)
    < 2 * ((n + 1) * (D * 2 ^ (- ex)) - N) ->
  exists m e,
    binary_round_aux prec emax false mx ex l = S754_finite false m e /\
    e <= 0 /\ n * 2 ^ (- e) <= Zpos m < (n + 1) * 2 ^ (- e).
Proof.
  intros HD Hex Hn Hn53 Hinv [Hlo Hhi] Hshift Hgap.
  unfold binary_round_aux, shr_fexp.
  (* first shift *)
  destruct (shr_inv_shift (shr_record_of_loc mx l) ex
              (fexp prec emax (Zdigits2 mx + ex) - ex) N D HD Hinv)
    as (k & Hk0 & Hkpos & Hknp & He1 & Hinv1).
  destruct (shr (shr_record_of_loc mx l) ex _) as [mrs1 e1]; simpl in He1, Hinv1.
  assert (Hk : k = Z.max 0 (fexp prec emax (Zdigits2 mx + ex) - ex)) by lia.
  rewrite <- Hk in Hshift, Hgap.
  assert (He1' : e1 <= 0) by lia.
  assert (Hpow : 2 ^ (- ex) = 2 ^ k * 2 ^ (- e1)).
  { rewrite <- pow2_split by lia. f_equal. lia. }
  pose proof (pow2_pos k Hk0) as Hk2.
  pose proof (pow2_pos (- e1) ltac:(lia)) as Hj2.
  destruct Hinv1 as (Hm1 & [Hlo1 Hhi1] & Hr1).
  set (A := 2 ^ k * D) in *. assert (HA : 0 < A) by (unfold A; nia).
  set (J := 2 ^ (- e1)) in *.
  assert (HNlo : n * J * A <= N) by (rewrite Hpow in Hlo; unfold A; nia).
  assert (HNhi : N < (n + 1) * J * A) by (rewrite Hpow in Hhi; unfold A; nia).
  assert (Hm1lo : n * J <= shr_m mrs1) by nia.
  assert (Hm1hi : shr_m mrs1 + 1 <= (n + 1) * J) by nia.
  (* rounding to nearest even *)
  set (m2 := round_nearest_even (shr_m mrs1) (loc_of_shr_record mrs1)).
  assert (Hm2 : n * J <= m2 < (n + 1) * J).
  { destruct (round_nearest_even_cases mrs1) as [Heq|[Heq Hrt]];
      fold m2 in Heq; rewrite Heq; [lia|].
    split; [lia|]. specialize (Hr1 Hrt).
    destruct (Z_lt_le_dec (shr_m mrs1 + 1) ((n + 1) * J)) as [|Hc]; [done|].
    exfalso. assert (Hm1eq : shr_m mrs1 = (n + 1) * J - 1) by lia.
    rewrite Hm1eq in Hr1. rewrite Hpow in Hgap. unfold A, J in *.
    clear - Hr1 Hgap. lia. }
  (* second shift *)
  destruct (shr_inv_shift (shr_record_of_loc m2 loc_Exact) e1
              (fexp prec emax (Zdigits2 m2 + e1) - e1) m2 1)
    as (k2 & Hk20 & Hk2pos & Hk2np & He2 & Hinv2); [lia|apply shr_inv_exact; lia|].
  destruct (shr (shr_record_of_loc m2 loc_Exact) e1 _) as [mrs2 e2];
    simpl in He2, Hinv2.
  destruct Hinv2 as (Hm3 & [Hlo3 Hhi3] & _).
  pose proof (pow2_pos k2 Hk20) as Hk22.
  assert (He2' : e2 <= 0).
  { destruct (Z_lt_le_dec 0 (fexp prec emax (Zdigits2 m2 + e1) - e1)) as [Hs|Hs];
      [|lia].
    assert (Hdig : Zdigits2 m2 <= 53 + - e1).
    { apply Zdigits2_le; [|lia]. split; [nia|].
      rewrite pow2_split by lia. fold J. nia. }
    unfold fexp, emin, prec, emax in *. lia. }
  assert (HJ : J = 2 ^ k2 * 2 ^ (- e2)).
  { unfold J. rewrite <- pow2_split by lia. f_equal. lia. }
  pose proof (pow2_pos (- e2) ltac:(lia)) as Hj3.
  assert (Hm3b : n * 2 ^ (- e2) <= shr_m mrs2 < (n + 1) * 2 ^ (- e2)).
  { rewrite HJ in Hm2. clear - Hm2 Hlo3 Hhi3 Hk22 Hj3. split.
    - assert (H : n * 2 ^ (- e2) * 2 ^ k2 < (shr_m mrs2 + 1) * 2 ^ k2) by lia.
      apply Z.mul_lt_mono_pos_r in H; lia.
    - assert (H : shr_m mrs2 * 2 ^ k2 < (n + 1) * 2 ^ (- e2) * 2 ^ k2) by lia.
      apply Z.mul_lt_mono_pos_r in H; lia. }
  destruct (shr_m mrs2) as [|m3|m3] eqn:Hm3e; [nia| |lia].
  replace (e2 <=? emax - prec) with true
    by (symmetry; apply Z.leb_le; unfold emax, prec; lia).
  by exists m3, e2.
Qed.

Lemma digits2_pos_mono (p q : positive) :
  (p <= q)%positive -> Zpos (digits2_pos p) <= Zpos (digits2_pos q).
Proof.
  intros Hpq. pose proof (digits2_pos_le p) as Hp.
  pose proof (digits2_pos_lt q) as Hq.
  destruct (Z_le_gt_dec (Zpos (digits2_pos p)) (Zpos (digits2_pos q))); [done|].
  assert (2 ^ Zpos (digits2_pos q) <= 2 ^ (Zpos (digits2_pos p) - 1))
    by (apply Z.pow_le_mono_r; lia).
  lia.
Qed.

(** For ints [0 < r <= h < 2^53], [int(h / r)] is the quotient [h // r]. *)
Lemma int_truediv_floor (h r : Z) :
  0 < r <= h -> h < 2 ^ 53 ->
  exists q, int_truediv h r = Ok q /\ int_of_float q = Ok (h / r).
Proof.
  intros [Hr Hrh] Hh. unfold int_truediv.
  replace (r =? 0) with false by (symmetry; apply Z.eqb_neq; lia).
  destruct h as [|ph|ph]; try lia. destruct r as [|pr|pr]; try lia.
  simpl exact_int. simpl SFdiv. unfold SFdiv_core_binary.
  set (d1 := Zdigits2 (Zpos ph)). set (d2 := Zdigits2 (Zpos pr)).
  assert (Hd1 : 0 < d1 <= 53).
  { unfold d1. split; [simpl; lia|]. apply Zdigits2_le; lia. }
  assert (Hd2 : 0 < d2 <= d1).
  { unfold d1, d2. split; [simpl; lia|]. simpl. apply digits2_pos_mono. lia. }
  pose proof (digits2_pos_lt ph) as Hhlt. fold (Zdigits2 (Zpos ph)) in Hhlt.
  pose proof (digits2_pos_le pr) as Hrle. fold (Zdigits2 (Zpos pr)) in Hrle.
  pose proof (digits2_pos_lt pr) as Hrlt. fold (Zdigits2 (Zpos pr)) in Hrlt.
  fold d1 in Hhlt. fold d2 in Hrle, Hrlt.
  replace (Z.min (fexp prec emax (d1 + 0 - (d2 + 0))) (0 - 0))
    with (d1 - d2 - 53) by (unfold fexp, emin, prec, emax; lia).
  set (s := 53 - (d1 - d2)). assert (Hs : 0 < s) by (unfold s; lia).
  replace (0 - 0 - (d1 - d2 - 53)) with s by (unfold s; lia).
  replace (d1 - d2 - 53) with (- s) by (unfold s; lia).
  match goal with
  | |- context [IntDef.Z.div_eucl ?m _] => set (m' := m)
  end.
  assert (Hm' : m' = Zpos ph * 2 ^ s).
  { unfold m'. destruct s as [|p|p] eqn:E; try lia.
    change (IntDef.Z.shiftl (Zpos ph) (Zpos p)) with (Z.shiftl (Zpos ph) (Zpos p)).
    by rewrite Z.shiftl_mul_pow2. }
  change (IntDef.Z.div_eucl m' (Zpos pr)) with (Z.div_eucl m' (Zpos pr)).
  pose proof (Z_div_mod m' (Zpos pr) eq_refl) as Hdiv.
  destruct (Z.div_eucl m' (Zpos pr)) as [q0 r0]. destruct Hdiv as [Hqr Hr0].
  pose proof (pow2_pos s ltac:(lia)) as Hs2.
  set (n := Zpos ph / Zpos pr).
  pose proof (Z.mul_div_le (Zpos ph) (Zpos pr) ltac:(lia)) as Hnlo.
  pose proof (Z.mul_succ_div_gt (Zpos ph) (Zpos pr) ltac:(lia)) as Hnhi.
  fold n in Hnlo, Hnhi.
  assert (Hn1 : 1 <= n) by (apply Z.div_le_lower_bound; lia).
  assert (Hn53 : n + 1 <= 2 ^ 53).
  { assert (n <= Zpos ph) by nia. lia. }
  assert (Hq0 : 0 <= q0 < 2 ^ 54).
  { split; [nia|].
    assert (Hh2 : Zpos ph * 2 ^ s < Zpos pr * 2 ^ 54).
    { assert (H54 : 2 ^ 54 = 2 ^ (d1 - d2 + 1) * 2 ^ s).
      { rewrite <- pow2_split by lia. f_equal. unfold s. lia. }
      assert (Hd : 2 ^ d1 = 2 ^ (d2 - 1) * 2 ^ (d1 - d2 + 1)).
      { rewrite <- pow2_split by lia. f_equal. lia. }
      pose proof (pow2_pos (d1 - d2 + 1) ltac:(lia)).
      rewrite H54. nia. }
    nia. }
  assert (Hshift : Z.max 0 (fexp prec emax (Zdigits2 q0 + - s) - - s) <= 1).
  { pose proof (Zdigits2_le q0 54 Hq0 ltac:(lia)).
    unfold fexp, emin, prec, emax, s in *. lia. }
  assert (Hrs : Zpos pr < 2 ^ s).
  { assert (2 ^ d2 <= 2 ^ s) by (apply Z.pow_le_mono_r; unfold s; lia). lia. }
  destruct (binary_round_aux_floor q0 (- s) (new_location (Zpos pr) r0)
              m' (Zpos pr) n) as (m & e & Hres & He & Hm); try done; try lia.
  - rewrite Hqr. apply new_location_inv; lia.
  - rewrite Z.opp_involutive, Hm'.
    assert (H1 : Zpos pr * n * 2 ^ s <= Zpos ph * 2 ^ s)
      by (apply Z.mul_le_mono_nonneg_r; lia).
    assert (H2 : Zpos ph * 2 ^ s < Zpos pr * Z.succ n * 2 ^ s)
      by (apply Z.mul_lt_mono_pos_r; lia).
    clear - H1 H2. lia.
  - rewrite Z.opp_involutive.
    assert (Hp : 2 ^ Z.max 0 (fexp prec emax (Zdigits2 q0 + - s) - - s) <= 2 ^ 1)
      by (apply Z.pow_le_mono_r; lia).
    change (2 ^ 1) with 2 in Hp.
    rewrite Hm'.
    assert (H1 : 1 * 2 ^ s <= (Zpos pr * Z.succ n - Zpos ph) * 2 ^ s)
      by (apply Z.mul_le_mono_nonneg_r; lia).
    assert (H2 : Zpos pr * 2 ^ Z.max 0 (fexp prec emax (Zdigits2 q0 + - s) - - s)
                 <= Zpos pr * 2)
      by (apply Z.mul_le_mono_nonneg_l; lia).
    clear - H1 H2 Hrs. lia.
  - rewrite Hres. simpl. eexists. split; [done|]. simpl. f_equal.
    rewrite Z.shiftl_div_pow2 by lia.
    pose proof (pow2_pos (- e) ltac:(lia)).
    symmetry. apply Z.div_unique with (r := Zpos m - n * 2 ^ (- e)); lia.
Qed.

End FloatFacts.

(* ================================================================== *)
(** * A float ratio: when the double quotient has the exact floor *)

Section FloatRatios.

(** [float(n)] for a positive int below 2^53 is [n] itself, held with a
    mantissa of 53 bits. *)
Lemma float_of_int_normal (n : Z) :
  0 < n < 2 ^ 53 ->
  exists mx ex,
    float_of_int n = Ok (S754_finite false mx ex) /\
    ex <= 0 /\ Zpos mx = n * 2 ^ (- ex) /\ Zpos (digits2_pos mx) = 53.
Proof.
  intros [Hn0 Hn]. destruct n as [|p|p]; try lia.
  unfold float_of_int. simpl binary_normalize. unfold binary_round.
  pose proof (Zdigits2_le (Zpos p) 53) as Hd. simpl in Hd.
  specialize (Hd ltac:(lia) ltac:(lia)).
  set (d := Zpos (digits2_pos p)) in *.
  assert (Hd0 : 0 < d) by (unfold d; lia).
  replace (fexp prec emax (d + 0)) with (d - 53)
    by (unfold fexp, emin, prec, emax; lia).
  unfold shl_align. destruct (d - 53 - 0) as [|k|k] eqn:Hk; try lia.
  - rewrite binary_round_aux_canonical; [|fold d; lia|lia].
    exists p, 0. simpl. split; [done|]. fold d. lia.
  - rewrite binary_round_aux_canonical.
    + exists (Pos.iter xO p k), (d - 53). simpl. split; [done|].
      rewrite iter_xO_value. replace (- (d - 53)) with (Zpos k) by lia.
      split; [lia|]. split; [done|].
      rewrite iter_xO_digits. fold d in Hk |- *. lia.
    + rewrite iter_xO_digits. fold d in Hk |- *. lia.
    + lia.
Qed.

(** A mantissa of 53 bits lies between 2^52 and 2^53. *)
Lemma normal_mantissa (m : positive) :
  Zpos (digits2_pos m) = 53 -> 2 ^ 52 <= Zpos m < 2 ^ 53.
Proof.
  intros Hd. pose proof (digits2_pos_le m) as Hle.
  pose proof (digits2_pos_lt m) as Hlt. rewrite Hd in Hle, Hlt.
  change (53 - 1) with 52 in Hle. done.
Qed.

(** A double is normal, with a mantissa of 53 bits, or subnormal, with
    the least exponent. *)
Lemma valid_binary_cases (m : positive) (e : Z) :
  valid_binary prec emax (S754_finite false m e) = true ->
  Zpos (digits2_pos m) = 53 \/ (e = -1074 /\ Zpos m < 2 ^ 53).
Proof.
  intros Hv. pose proof (valid_binary_mantissa _ _ _ Hv) as Hm.
  simpl in Hv. unfold bounded, canonical_mantissa in Hv.
  apply andb_prop in Hv as [Hc _]. apply Z.eqb_eq in Hc.
  unfold fexp, emin, prec, emax in Hc. lia.
Qed.

(** [int(h / r)] for an int [h] and a double [r] of value [my * 2^ey]
    with [ey <= 0].  When the exact quotient lies below the next integer
    by at least the 2^53-th part of that integer, the rounding of the
    double quotient does not reach it, and the result is the floor of the
    exact quotient. *)
Lemma float_truediv_floor (h : Z) (my : positive) (ey : Z) :
  0 < h < 2 ^ 53 ->
  valid_binary prec emax (S754_finite false my ey) = true ->
  ey <= 0 ->
  1 <= (h * 2 ^ (- ey)) / Zpos my ->
  ((h * 2 ^ (- ey)) / Zpos my + 1) * Zpos my <=
    (((h * 2 ^ (- ey)) / Zpos my + 1) * Zpos my - h * 2 ^ (- ey)) * 2 ^ 53 ->
  exists q,
    truediv h (PyFloat (S754_finite false my ey)) = Ok q /\
    int_of_float q = Ok ((h * 2 ^ (- ey)) / Zpos my).
Proof.
  intros Hh Hv Hey Hn1 Hclear.
  set (X := h * 2 ^ (- ey)) in *. set (n := X / Zpos my) in *.
  pose proof (pow2_pos (- ey) ltac:(lia)) as Hey2.
  pose proof (Z.mul_div_le X (Zpos my) ltac:(lia)) as Hnlo.
  pose proof (Z.mul_succ_div_gt X (Zpos my) ltac:(lia)) as Hnhi.
  fold n in Hnlo, Hnhi.
  set (D := (n + 1) * Zpos my - X) in *.
  assert (HD : 0 < D <= Zpos my) by (unfold D; lia).
  assert (Hn53 : n + 1 <= 2 ^ 53).
  { assert (H1 : (n + 1) * Zpos my <= 2 ^ 53 * Zpos my).
    { etrans; [exact Hclear|]. rewrite (Z.mul_comm D).
      apply Z.mul_le_mono_nonneg_l; lia. }
    apply Z.mul_le_mono_pos_r in H1; lia. }
  (* the divisor is a normal double *)
  assert (Hdy : Zpos (digits2_pos my) = 53).
  { destruct (valid_binary_cases _ _ Hv) as [Hd|[He Hm]]; [done|]. exfalso.
    assert (Hbig : 2 ^ 53 * 2 ^ 53 <= 2 ^ (- ey)).
    { rewrite <- pow2_split by lia. apply Z.pow_le_mono_r; lia. }
    assert (HXbig : 2 ^ 53 * 2 ^ 53 <= X) by (unfold X; nia).
    clear - HXbig Hnhi Hm Hn53 Hn1. nia. }
  pose proof (normal_mantissa _ Hdy) as Hmyb.
  destruct (float_of_int_normal h Hh) as (mx & ex & Hx & Hex & Hmx & Hdx).
  pose proof (normal_mantissa _ Hdx) as Hmxb.
  pose proof (pow2_pos (- ex) ltac:(lia)) as Hex2.
  (* the exponents differ by E, between 0 and 53 *)
  assert (HE0 : 0 <= ex - ey).
  { destruct (Z_lt_le_dec (ex - ey) 0) as [Hc|]; [exfalso|done].
    assert (Hp : 2 ^ (- ex) = 2 ^ (- ey) * 2 ^ (ey - ex)).
    { rewrite <- pow2_split by lia. f_equal. lia. }
    assert (H2 : 2 ^ 1 <= 2 ^ (ey - ex)) by (apply Z.pow_le_mono_r; lia).
    change (2 ^ 1) with 2 in H2.
    assert (HmX : Zpos mx = X * 2 ^ (ey - ex))
      by (unfold X; rewrite Hmx, Hp; ring).
    clear - Hnlo Hn1 HmX H2 Hmxb Hmyb. nia. }
  set (E := ex - ey) in *.
  assert (HpE : 2 ^ (- ey) = 2 ^ (- ex) * 2 ^ E).
  { rewrite <- pow2_split by lia. f_equal. unfold E. lia. }
  pose proof (pow2_pos E HE0) as HE2.
  assert (HX : X = Zpos mx * 2 ^ E) by (unfold X; rewrite Hmx, HpE; ring).
  assert (HE53 : E <= 53).
  { destruct (Z_le_gt_dec E 53) as [|Hc]; [done|exfalso].
    assert (H54 : 2 ^ 54 <= 2 ^ E) by (apply Z.pow_le_mono_r; lia).
    clear - H54 HX Hnhi Hn53 Hmxb Hmyb Hn1. nia. }
  set (P := 2 ^ (53 - E)).
  assert (HP : 0 < P) by (apply pow2_pos; lia).
  assert (H53 : 2 ^ 53 = 2 ^ E * P).
  { unfold P. rewrite <- pow2_split by lia. f_equal. lia. }
  (* the division of the mantissas *)
  simpl truediv. rewrite Hx. simpl rbind. unfold float_truediv.
  simpl is_zero. cbv iota. simpl SFdiv. unfold SFdiv_core_binary.
  change (Zdigits2 (Zpos mx)) with (Zpos (digits2_pos mx)). rewrite Hdx.
  change (Zdigits2 (Zpos my)) with (Zpos (digits2_pos my)). rewrite Hdy.
  replace (Z.min (fexp prec emax (53 + ex - (53 + ey))) (ex - ey))
    with (E - 53) by (unfold fexp, emin, prec, emax, E; lia).
  replace (ex - ey - (E - 53)) with 53 by (unfold E; lia).
  match goal with
  | |- context [IntDef.Z.div_eucl ?m _] => set (m' := m)
  end.
  assert (Hm' : m' = X * P).
  { unfold m'. cbv iota.
    change (IntDef.Z.shiftl (Zpos mx) 53) with (Z.shiftl (Zpos mx) 53).
    rewrite Z.shiftl_mul_pow2 by lia. rewrite HX, H53. ring. }
  change (IntDef.Z.div_eucl m' (Zpos my)) with (Z.div_eucl m' (Zpos my)).
  pose proof (Z_div_mod m' (Zpos my) eq_refl) as Hdiv.
  destruct (Z.div_eucl m' (Zpos my)) as [q0 r0]. destruct Hdiv as [Hqr Hr0].
  assert (Hlo : n * (Zpos my * P) <= m').
  { rewrite Hm'. clear - Hnlo HP. nia. }
  assert (Hhi : m' < (n + 1) * (Zpos my * P)).
  { rewrite Hm'. clear - Hnhi HP. nia. }
  assert (Hq0hi : q0 < (n + 1) * P).
  { clear - Hqr Hr0 Hhi. nia. }
  assert (Hq0lo : 2 ^ 52 <= q0).
  { assert (Hm'lo : 2 ^ 52 * 2 ^ 53 <= m').
    { rewrite Hm', HX, <- Z.mul_assoc, <- H53. clear - Hmxb. nia. }
    clear - Hqr Hr0 Hm'lo Hmyb. nia. }
  (* the digits of the quotient *)
  set (dq := Zdigits2 q0).
  assert (Hdq : 53 <= dq /\ 2 ^ (dq - 1) <= q0 /\ dq <= 106 - E).
  { unfold dq. destruct q0 as [|pq|pq]; try lia.
    pose proof (digits2_pos_le pq) as Hle. pose proof (digits2_pos_lt pq) as Hlt.
    simpl Zdigits2. split; [|split; [done|]].
    - destruct (Z_le_gt_dec 53 (Zpos (digits2_pos pq))) as [|Hc]; [done|exfalso].
      assert (2 ^ Zpos (digits2_pos pq) <= 2 ^ 52) by (apply Z.pow_le_mono_r; lia).
      lia.
    - apply (Zdigits2_le (Zpos pq)); [|lia]. split; [lia|].
      replace (106 - E) with (53 + (53 - E)) by lia.
      rewrite pow2_split by lia. fold P. clear - Hq0hi Hn53 HP. nia. }
  destruct Hdq as (Hdq53 & Hdqlo & Hdqhi).
  assert (Hk : Z.max 0 (fexp prec emax (dq + (E - 53)) - (E - 53)) = dq - 53)
    by (unfold fexp, emin, prec, emax; lia).
  destruct (binary_round_aux_floor q0 (E - 53) (new_location (Zpos my) r0)
              m' (Zpos my) n) as (m & e & Hres & He & Hm); try done; try lia.
  - rewrite Hqr. apply new_location_inv; lia.
  - replace (- (E - 53)) with (53 - E) by lia. by fold P.
  - fold dq. rewrite Hk. lia.
  - fold dq. rewrite Hk. replace (- (E - 53)) with (53 - E) by lia. fold P.
    set (K := 2 ^ (dq - 53)).
    assert (HK : 0 < K) by (apply pow2_pos; lia).
    assert (HK52 : K * 2 ^ 52 <= q0).
    { unfold K. rewrite <- pow2_split by lia.
      by replace (dq - 53 + 52) with (dq - 1) by lia. }
    (* K * 2^52 * my < (n+1) * P * my <= P * D * 2^53 *)
    assert (H1 : K * 2 ^ 52 * Zpos my < (n + 1) * P * Zpos my)
      by (apply Z.mul_lt_mono_pos_r; lia).
    assert (H2 : P * ((n + 1) * Zpos my) <= P * (D * 2 ^ 53))
      by (apply Z.mul_le_mono_nonneg_l; lia).
    rewrite Hm'.
    replace ((n + 1) * (Zpos my * P) - X * P) with (P * D) by (unfold D; ring).
    clear - H1 H2. lia.
  - rewrite Hres. simpl. eexists. split; [done|]. simpl. f_equal.
    rewrite Z.shiftl_div_pow2 by lia.
    pose proof (pow2_pos (- e) ltac:(lia)).
    symmetry. apply Z.div_unique with (r := Zpos m - n * 2 ^ (- e)); lia.
Qed.

(** Line 46 with a float ratio of value [my * 2^ey], under the same
    condition: the subtitle height is the floor of the exact quotient. *)
Lemma subtitle_height_float_ratio (h : Z) (my : positive) (ey : Z) :
  0 < h < 2 ^ 53 ->
  valid_binary prec emax (S754_finite false my ey) = true ->
  ey <= 0 ->
  clear_of_next h (Zpos my) (2 ^ (- ey)) ->
  subtitle_height_of h (PyFloat (S754_finite false my ey)) =
    Ok (Spec.subtitleHeight h (Zpos my) (2 ^ (- ey))).
Proof.
  unfold clear_of_next, Spec.subtitleHeight. intros Hh Hv Hey Hclear.
  unfold subtitle_height_of.
  pose proof (pow2_pos (- ey) ltac:(lia)) as Hey2.
  destruct (Z_le_gt_dec 1 (h * 2 ^ (- ey) / Zpos my)) as [Hn1|Hn0].
  - destruct (float_truediv_floor h my ey) as (q & Hq & Hint); try done.
    by rewrite Hq.
  - assert (Hlt : h * 2 ^ (- ey) < Zpos my).
    { destruct (Z_lt_le_dec (h * 2 ^ (- ey)) (Zpos my)) as [|Hc]; [done|exfalso].
      assert (1 <= h * 2 ^ (- ey) / Zpos my)
        by (apply Z.div_le_lower_bound; lia).
      lia. }
    destruct (truediv_gt_zero h (PyFloat (S754_finite false my ey)))
      as (q & Hq & Hint); [done|done| |].
    + simpl. unfold scaled_gt. destruct (0 <=? ey) eqn:He.
      * apply Z.leb_le in He. replace ey with 0 in * by lia.
        apply Z.ltb_lt. rewrite Z.shiftl_0_r. simpl in Hlt. lia.
      * apply Z.ltb_lt. rewrite Z.shiftl_mul_pow2 by lia. done.
    + rewrite Hq. simpl. rewrite Hint. by rewrite Z.div_small by nia.
Qed.

End FloatRatios.


(* ================================================================== *)
(** * Facts about file names and listings *)

Section NameFacts.













Lemma filter_Permutation_bool {A} (f : A -> bool) (l1 l2 : list A) :
  l1 ≡ₚ l2 -> List.filter f l1 ≡ₚ List.filter f l2.
Proof.
  induction 1 as [|x l1 l2 _ IH|x y l|l1 l2 l3 _ IH1 _ IH2]; simpl.
  - done.
  - destruct (f x); [by constructor|done].
  - destruct (f x), (f y); try done. by constructor.
  - by etrans.
Qed.

Lemma png_files_sorted (names : list string) :
  StronglySorted String.le (png_files names).
Proof. apply StronglySorted_merge_sort; apply _. Qed.

Lemma png_files_Permutation (names : list string) :
  png_files names ≡ₚ List.filter is_png names.
Proof. apply merge_sort_Permutation. Qed.

Lemma png_files_elem_of (names : list string) (f : string) :
  f ∈ png_files names <-> f ∈ names /\ is_png f = true.
Proof.
  rewrite (png_files_Permutation names), !list_elem_of_In.
  apply filter_In.
Qed.

(** The sorted list does not depend on the order of the listing. *)
Lemma png_files_order (names1 names2 : list string) :
  names1 ≡ₚ names2 -> png_files names1 = png_files names2.
Proof.
  intros Hp. apply (StronglySorted_unique String.le);
    try apply png_files_sorted.
  rewrite !png_files_Permutation. by apply filter_Permutation_bool.
Qed.

Lemma contents_names (d : Directory) : (contents d).*1 = d.*1.
Proof.
  unfold contents. induction d as [|[n f] d IH]; [done|].
  rewrite !fmap_cons. simpl. by rewrite <- IH.
Qed.

Lemma same_directory_names (d1 d2 : Directory) :
  same_directory d1 d2 -> d1.*1 ≡ₚ d2.*1.
Proof.
  intros H. rewrite <- !contents_names. by apply fmap_Permutation.
Qed.

Lemma find_entry_Some (n : string) (d : Directory) (f : File) :
  find_entry n d = Some f -> (n, f) ∈ d.
Proof.
  induction d as [|[n' f'] d IH]; simpl; [done|].
  destruct (String.eqb n' n) eqn:E.
  - apply String.eqb_eq in E as ->. intros [= ->]. apply list_elem_of_here.
  - intros H. apply list_elem_of_further. auto.
Qed.

Lemma find_entry_None (n : string) (d : Directory) :
  find_entry n d = None <-> n ∉ d.*1.
Proof.
  induction d as [|[n' f'] d IH]; simpl.
  - split; [|done]. intros _ H. by apply elem_of_nil in H.
  - rewrite not_elem_of_cons. destruct (String.eqb n' n) eqn:E.
    + apply String.eqb_eq in E as ->. split; [done|]. by intros [? _].
    + apply String.eqb_neq in E. rewrite IH. simpl. intuition congruence.
Qed.

Lemma find_entry_NoDup (n : string) (d : Directory) (f : File) :
  NoDup d.*1 -> (n, f) ∈ d -> find_entry n d = Some f.
Proof.
  induction d as [|[n' f'] d IH]; simpl; intros Hnd Hin.
  - by apply elem_of_nil in Hin.
  - apply NoDup_cons in Hnd as [Hn' Hnd].
    apply elem_of_cons in Hin as [[= -> ->]|Hin].
    + by rewrite String.eqb_refl.
    + destruct (String.eqb n' n) eqn:E; [|auto].
      apply String.eqb_eq in E as ->. exfalso. apply Hn'.
      apply list_elem_of_fmap. by exists (n, f).
Qed.

(** Looking a name up gives the same contents in two listings of one
    directory. *)
Lemma same_directory_find (d1 d2 : Directory) (n : string) :
  NoDup d1.*1 -> same_directory d1 d2 ->
  decoded <$> find_entry n d1 = decoded <$> find_entry n d2.
Proof.
  intros Hnd Hsame.
  pose proof (same_directory_names _ _ Hsame) as Hnames.
  assert (Hnd2 : NoDup d2.*1) by (by rewrite <- Hnames).
  destruct (find_entry n d1) as [f1|] eqn:H1.
  - apply find_entry_Some in H1.
    assert (Hc : (n, decoded f1) ∈ contents d2).
    { unfold same_directory in Hsame. rewrite <- Hsame.
      apply list_elem_of_fmap. by exists (n, f1). }
    apply list_elem_of_fmap in Hc as ([n2 f2] & [= -> Hdec] & Hin2).
    rewrite (find_entry_NoDup _ _ _ Hnd2 Hin2). simpl. by rewrite Hdec.
  - apply find_entry_None in H1. rewrite Hnames in H1.
    apply find_entry_None in H1. by rewrite H1.
Qed.

Lemma decode_all_same (d1 d2 : Directory) (files : list string) :
  (forall n, decoded <$> find_entry n d1 = decoded <$> find_entry n d2) ->
  decode_all d1 files = decode_all d2 files.
Proof.
  intros H. induction files as [|n files IH]; simpl; [done|].
  specialize (H n).
  destruct (find_entry n d1) as [f1|], (find_entry n d2) as [f2|];
    simpl in H; try done.
  injection H as ->. by rewrite IH.
Qed.

Lemma decode_all_length (d : Directory) (files : list string) (imgs : list Image) :
  decode_all d files = Ok imgs -> length imgs = length files.
Proof.
  revert imgs. induction files as [|n files IH]; simpl; intros imgs.
  - by intros [= <-].
  - destruct (find_entry n d) as [f|]; [|done].
    destruct (decoded f) as [e|im]; [done|]. simpl.
    destruct (decode_all d files) as [e|l]; [done|].
    intros [= <-]. simpl. f_equal. by apply IH.
Qed.

End NameFacts.

(* ================================================================== *)
(** * Facts about the compositor *)

Section CompositorFacts.

Context {platform : Platform}.
Variable lanczos : Image -> Z -> Z -> Z -> Z -> Pixel.

Lemma in_bounds_true (im : Image) (x y : Z) :
  in_bounds im x y = true <-> 0 <= x < width im /\ 0 <= y < height im.
Proof. unfold in_bounds. rewrite !andb_true_iff. lia. Qed.

Lemma in_bounds_false (im : Image) (x y : Z) :
  in_bounds im x y = false <-> ~ (0 <= x < width im /\ 0 <= y < height im).
Proof. rewrite <- in_bounds_true. by destruct (in_bounds im x y). Qed.

(** *** Reading the folder *)

Lemma bind_run {A B} (m : Py A) (k : A -> Py B) (w : World) :
  bind m k w =
    match m w with
    | (inl e, w') => (inl e, w')
    | (inr a, w') => k a w'
    end.
Proof. reflexivity. Qed.

Ltac bind_step :=
  lazymatch goal with
  | |- bind ?m ?k ?w = _ => rewrite (bind_run m k w)
  end.

Ltac run_step := cbv beta iota zeta delta [Ok Raise].

Lemma open_images_run (folder : string) (d : Directory) (files : list string)
    (w : World) :
  dirs w !! folder = Some d ->
  open_images folder files w = (decode_all d files, w).
Proof.
  intros Hd. induction files as [|n files IH]; [done|].
  cbn [open_images decode_all]. bind_step. unfold Image_open. rewrite Hd.
  destruct (find_entry n d) as [f|]; [|done].
  destruct (decoded f) as [e|im]; [done|]. run_step.
  bind_step. rewrite IH. by destruct (decode_all d files).
Qed.

(** *** Printing the report *)

Lemma emitted_all (lines : list Output) :
  forallb encodes lines = true -> emitted lines = lines.
Proof.
  induction lines as [|o lines IH]; [done|]. simpl.
  intros [Ho Hl]%andb_prop. rewrite Ho. by rewrite IH.
Qed.

Lemma printed_all (lines : list Output) :
  (forall o, encodes o = true) -> printed lines = Ok PyNone.
Proof.
  intros Hall. unfold printed.
  replace (forallb encodes lines) with true; [done|].
  symmetry. apply forallb_forall. by intros o _.
Qed.

Lemma printed_Ok (lines : list Output) (r : PyObj) :
  printed lines = Ok r -> r = PyNone /\ emitted lines = lines.
Proof.
  unfold printed. destruct (forallb encodes lines) eqn:E; [|done].
  intros [= <-]. split; [done|]. by apply emitted_all.
Qed.

(** The four prints of lines 76-79, from a world [w0]. *)
Lemma report_run (o1 o2 o3 o4 : Output) (w0 : World) :
  (let* _ := print o1 in
   let* _ := print o2 in
   let* _ := print o3 in
   let* _ := print o4 in
   ret PyNone) w0 =
  (printed [o1; o2; o3; o4],
   mkWorld (dirs w0) (unwritable w0) (saved w0)
     (console w0 ++ emitted [o1; o2; o3; o4])).
Proof.
  unfold printed. cbn [forallb emitted].
  bind_step. unfold print at 1. cbv beta.
  destruct (encodes o1); [|destruct w0; simpl; by rewrite app_nil_r].
  run_step. bind_step. unfold print at 1. cbv beta.
  cbn [dirs unwritable saved console].
  destruct (encodes o2); [|done].
  run_step. bind_step. unfold print at 1. cbv beta.
  cbn [dirs unwritable saved console].
  destruct (encodes o3); [|simpl; by rewrite <- !app_assoc].
  run_step. bind_step. unfold print at 1. cbv beta.
  cbn [dirs unwritable saved console].
  destruct (encodes o4); simpl; unfold ret; by rewrite <- !app_assoc.
Qed.

(** One run of the whole function, stage by stage. *)
Lemma merge_run (folder out : string) (ratio : num) (w : World) (d : Directory) :
  dirs w !! folder = Some d ->
  merge_screenshots_with_subtitles lanczos folder out ratio w =
    let image_files := png_files d.*1 in
    if (length image_files <? 2)%nat then (Raise (ValueError too_few_images), w)
    else
      match decode_all d image_files with
      | inl e => (inl e, w)
      | inr images =>
          match stack_images lanczos images ratio with
          | inl e => (inl e, w)
          | inr c =>
              if bool_decide (out ∈ unwritable w) then (Raise OSError, w)
              else (printed (report image_files out ratio c),
                    finished w out (new_image c)
                      (emitted (report image_files out ratio c)))
          end
      end.
Proof.
  intros Hd. unfold merge_screenshots_with_subtitles.
  bind_step. unfold os_listdir. cbv beta. rewrite Hd. run_step.
  destruct (length (png_files d.*1) <? 2)%nat; [done|].
  bind_step. rewrite (open_images_run _ _ _ _ Hd).
  destruct (decode_all d (png_files d.*1)) as [e|images]; [done|]. run_step.
  bind_step. unfold lift. cbv beta.
  destruct (stack_images lanczos images ratio) as [e|c]; [done|]. run_step.
  bind_step. unfold Image_save. cbv beta.
  destruct (bool_decide (out ∈ unwritable w)); [done|]. run_step.
  by rewrite report_run.
Qed.

(** A run reads the listing and the lock and nothing else; it changes
    the folder the output lies in, the saved files and the console, and
    nothing else. *)
Lemma merge_spec (folder out : string) (ratio : num) (w : World) :
  merge_screenshots_with_subtitles lanczos folder out ratio w =
    match run_result lanczos (dirs w !! folder)
            (bool_decide (out ∈ unwritable w)) ratio with
    | inl e => (inl e, w)
    | inr (image_files, c) =>
        (printed (report image_files out ratio c),
         finished w out (new_image c)
           (emitted (report image_files out ratio c)))
    end.
Proof.
  destruct (dirs w !! folder) as [d|] eqn:Hd.
  - rewrite (merge_run _ _ _ _ _ Hd). unfold run_result. cbv zeta.
    destruct (length (png_files d.*1) <? 2)%nat; [done|].
    destruct (decode_all d (png_files d.*1)) as [e|images]; [done|].
    cbv beta iota zeta delta [rbind Ok].
    destruct (stack_images lanczos images ratio) as [e|c]; [done|].
    by destruct (bool_decide (out ∈ unwritable w)).
  - unfold merge_screenshots_with_subtitles. bind_step.
    unfold os_listdir. cbv beta. by rewrite Hd.
Qed.

(** *** The first loop *)

Lemma resize_size (img r : Image) (w h : Z) :
  resize lanczos img w h = Ok r -> width r = w /\ height r = h.
Proof.
  unfold resize.
  destruct ((w =? width img) && (h =? height img)) eqn:E.
  - intros [= <-]. apply andb_prop in E as [?%Z.eqb_eq ?%Z.eqb_eq]. done.
  - destruct ((w <? 1) || (h <? 1)); [done|].
    destruct ((INT_MAX <? w) || (INT_MAX <? h)); [done|].
    destruct (refusal Resize w h); [done|]. by intros [= <-].
Qed.

(** What Pillow asks of a size it resamples to. *)
Lemma resize_ok (img : Image) (w h : Z) :
  w <> width img -> 1 <= w <= INT_MAX -> 1 <= h <= INT_MAX ->
  accepts Resize w h = true ->
  resize lanczos img w h = Ok (mkImage w h (lanczos img w h) (zero img)).
Proof.
  intros Hne Hw Hh Hacc. unfold resize.
  replace (w =? width img) with false by (symmetry; by apply Z.eqb_neq).
  simpl andb. cbv iota.
  replace ((w <? 1) || (h <? 1)) with false
    by (symmetry; apply orb_false_intro; apply Z.ltb_ge; lia).
  replace ((INT_MAX <? w) || (INT_MAX <? h)) with false
    by (symmetry; apply orb_false_intro; apply Z.ltb_ge; lia).
  unfold accepts in Hacc. by destruct (refusal Resize w h).
Qed.

Lemma normalize_same (tw : Z) (img : Image) :
  width img = tw -> normalize lanczos tw img = Ok img.
Proof. intros Hw. unfold normalize. by rewrite Hw, Z.eqb_refl. Qed.

Lemma normalize_resized (tw : Z) (img r : Image) :
  width img <> tw -> normalize lanczos tw img = Ok r ->
  exists h, new_height tw img = Ok h /\ 1 <= tw /\ 1 <= h /\
            r = mkImage tw h (lanczos img tw h) (zero img).
Proof.
  intros Hw. unfold normalize.
  replace (width img =? tw) with false by (symmetry; by apply Z.eqb_neq).
  simpl. destruct (new_height tw img) as [e|h]; [done|]. simpl.
  unfold resize.
  replace (tw =? width img) with false by (symmetry; apply Z.eqb_neq; lia).
  simpl. destruct ((tw <? 1) || (h <? 1)) eqn:E; [done|].
  apply orb_false_elim in E as [?%Z.ltb_ge ?%Z.ltb_ge].
  destruct ((INT_MAX <? tw) || (INT_MAX <? h)); [done|].
  destruct (refusal Resize tw h); [done|].
  intros [= <-]. by exists h.
Qed.

Lemma normalize_width (tw : Z) (img r : Image) :
  normalize lanczos tw img = Ok r -> width r = tw.
Proof.
  intros Hn. destruct (Z.eq_dec (width img) tw) as [Heq|Hne].
  - rewrite normalize_same in Hn by done. by injection Hn as <-.
  - destruct (normalize_resized _ _ _ Hne Hn) as (h & _ & _ & _ & ->). done.
Qed.

Lemma resize_rest_lookup (tw : Z) (imgs rs : list Image) :
  resize_rest lanczos tw imgs = Ok rs ->
  length rs = length imgs /\
  forall (k : nat) (r : Image),
    rs !! k = Some r <->
    exists img, imgs !! k = Some img /\ normalize lanczos tw img = Ok r.
Proof.
  revert rs. induction imgs as [|img imgs IH]; simpl; intros rs.
  - intros [= <-]. split; [done|]. intros k r. split; [done|].
    by intros (img & ? & _).
  - destruct (normalize lanczos tw img) as [e|r0] eqn:Hn; [done|]. simpl.
    destruct (resize_rest lanczos tw imgs) as [e|rs'] eqn:Hr; [done|]. simpl.
    intros [= <-]. destruct (IH rs' eq_refl) as [Hlen Hk].
    split; [simpl; by rewrite Hlen|]. intros [|k] r; simpl.
    + split.
      * intros [= <-]. by exists img.
      * intros (img' & [= <-] & Hn'). rewrite Hn in Hn'. by injection Hn' as ->.
    + apply Hk.
Qed.

(** *** The second loop *)

Lemma paste_px_in (canvas im : Image) (x0 y0 x y : Z) :
  in_bounds canvas x y = true -> in_bounds im (x - x0) (y - y0) = true ->
  px (paste canvas im x0 y0) x y = px im (x - x0) (y - y0).
Proof. intros H1 H2. unfold paste; simpl. by rewrite H1, H2. Qed.

Lemma paste_px_out (canvas im : Image) (x0 y0 x y : Z) :
  in_bounds im (x - x0) (y - y0) = false ->
  px (paste canvas im x0 y0) x y = px canvas x y.
Proof. intros Hout. unfold paste; simpl. by rewrite Hout, andb_false_r. Qed.

(** The crop of line 64 is the band, when Pillow grants it. *)
Lemma subtitle_band_crop (sh tw : Z) (img : Image) :
  subtitle_band sh tw img =
    if (tw <? 0) then Raise (ValueError "Coordinate 'right' is less than 'left'")
    else if sh <? 0
    then Raise (ValueError "Coordinate 'lower' is less than 'upper'")
    else match refusal Crop tw sh with
         | Some e => Raise e
         | None => Ok (band sh tw img)
         end.
Proof.
  unfold subtitle_band, crop, band.
  replace (height img <? height img - sh) with (sh <? 0)
    by (destruct (Z.ltb_spec sh 0), (Z.ltb_spec (height img) (height img - sh));
        lia || done).
  replace (tw - 0) with tw by lia.
  by replace (height img - (height img - sh)) with sh by lia.
Qed.

Lemma subtitle_band_ok (sh tw : Z) (img : Image) :
  0 <= sh -> 0 <= tw -> accepts Crop tw sh = true ->
  subtitle_band sh tw img = Ok (band sh tw img).
Proof.
  intros Hsh Htw Hacc. rewrite subtitle_band_crop.
  replace (tw <? 0) with false by (symmetry; apply Z.ltb_ge; lia).
  replace (sh <? 0) with false by (symmetry; apply Z.ltb_ge; lia).
  unfold accepts in Hacc. by destruct (refusal Crop tw sh).
Qed.

Lemma band_size (sh tw : Z) (img : Image) :
  width (band sh tw img) = tw /\ height (band sh tw img) = sh.
Proof. unfold band, region; simpl. lia. Qed.

Lemma paste_subtitles_spec (h0 sh tw : Z) (imgs : list Image) :
  0 <= sh -> 0 <= tw -> accepts Crop tw sh = true ->
  forall (c : Image) (i : Z),
  exists c',
    paste_subtitles c h0 sh tw i imgs = Ok c' /\
    width c' = width c /\ height c' = height c /\
    (forall x y, y < h0 + sh * (i - 1) -> px c' x y = px c x y) /\
    (forall (k : nat) (r : Image) (x j : Z),
       imgs !! k = Some r -> 0 <= x < tw -> 0 <= j < sh ->
       in_bounds c x (h0 + sh * (i - 1 + Z.of_nat k) + j) = true ->
       px c' x (h0 + sh * (i - 1 + Z.of_nat k) + j) = px (band sh tw r) x j).
Proof.
  intros Hsh Htw Hacc. induction imgs as [|img imgs IH]; intros c i; simpl.
  - exists c. split; [done|]. split; [done|]. split; [done|]. split; [done|].
    by intros k r x j ?.
  - rewrite subtitle_band_ok by done. simpl.
    set (c1 := paste c (band sh tw img) 0 (h0 + sh * (i - 1))).
    destruct (IH c1 (i + 1)) as (c' & Hrun & Hw & Hh & Hframe & Hband).
    exists c'. split; [done|]. split; [done|]. split; [done|]. split.
    + intros x y Hy. rewrite Hframe by nia.
      apply paste_px_out, in_bounds_false.
      destruct (band_size sh tw img) as [-> ->]. lia.
    + intros [|k] r x j Hk Hx Hj Hin; simpl in Hk.
      * injection Hk as <-. rewrite Hframe by nia.
        replace (i - 1 + Z.of_nat 0) with (i - 1) in * by lia.
        unfold c1. rewrite paste_px_in.
        -- replace (x - 0) with x by lia.
           by replace (h0 + sh * (i - 1) + j - (h0 + sh * (i - 1))) with j by lia.
        -- done.
        -- apply in_bounds_true.
           destruct (band_size sh tw img) as [-> ->]. lia.
      * replace (i - 1 + Z.of_nat (S k)) with (i + 1 - 1 + Z.of_nat k) in * by lia.
        by apply Hband.
Qed.

(** *** Lines 30-72 on a list of opened images *)

Lemma new_ok (w h : Z) (color : Pixel) :
  0 <= w <= INT_MAX -> 0 <= h <= INT_MAX -> accepts NewImage w h = true ->
  new w h color = Ok (mkImage w h (fun _ _ => color) black).
Proof.
  intros Hw Hh Hacc. unfold new.
  replace ((w <? 0) || (h <? 0)) with false
    by (symmetry; apply orb_false_intro; apply Z.ltb_ge; lia).
  replace ((INT_MAX <? w) || (INT_MAX <? h)) with false
    by (symmetry; apply orb_false_intro; apply Z.ltb_ge; lia).
  unfold accepts in Hacc. by destruct (refusal NewImage w h).
Qed.

Lemma stack_images_ok (first : Image) (rest rr : list Image) (ratio : num)
    (sh : Z) :
  resize_rest lanczos (width first) rest = Ok rr ->
  subtitle_height_of (height first) ratio = Ok sh ->
  0 <= sh -> 0 <= width first -> 0 <= height first ->
  fits (width first)
    (height first + sh * (Z.of_nat (length (first :: rest)) - 1)) sh ->
  exists c,
    stack_images lanczos (first :: rest) ratio = Ok c /\
    target_width c = width first /\
    subtitle_height c = sh /\
    total_height c = height first + sh * (Z.of_nat (length (first :: rest)) - 1) /\
    width (new_image c) = target_width c /\
    height (new_image c) = total_height c /\
    (forall x y, 0 <= x < width first -> 0 <= y < height first ->
                 px (new_image c) x y = px first x y) /\
    (forall (k : nat) (r : Image) (x j : Z),
       rr !! k = Some r -> 0 <= x < width first -> 0 <= j < sh ->
       px (new_image c) x (height first + sh * Z.of_nat k + j) =
         px (band sh (width first) r) x j).
Proof.
  intros Hrr Hsh Hsh0 Hw Hh (Hwmax & Htmax & Hnew & Hcrop).
  destruct (resize_rest_lookup _ _ _ Hrr) as [Hlen _].
  unfold stack_images. rewrite Hrr, Hsh. cbv beta iota zeta delta [rbind Ok].
  set (total := height first + sh * (Z.of_nat (length (first :: rr)) - 1)).
  assert (Htotal : total = height first + sh * Z.of_nat (length rr)).
  { unfold total. simpl length. f_equal. f_equal. lia. }
  assert (Htotal' : total =
            height first + sh * (Z.of_nat (length (first :: rest)) - 1)).
  { unfold total. simpl length. by rewrite Hlen. }
  rewrite <- Htotal' in Htmax, Hnew.
  assert (Hw' : 0 <= width first <= INT_MAX) by lia.
  assert (Ht' : 0 <= total <= INT_MAX) by nia.
  rewrite (new_ok _ _ white Hw' Ht' Hnew).
  cbv beta iota zeta delta [rbind Ok].
  set (blank := mkImage (width first) total (fun _ _ => white) black).
  destruct (paste_subtitles_spec (height first) sh (width first) rr Hsh0 Hw
              Hcrop (paste blank first 0 0) 1)
    as (c' & Hrun & Hwc & Hhc & Hframe & Hband).
  rewrite Hrun. cbv beta iota zeta delta [rbind Ok]. eexists. split; [done|]. simpl.
  split; [done|]. split; [done|].
  split; [done|].
  split; [by rewrite Hwc|]. split; [by rewrite Hhc|]. split.
  - intros x y Hx Hy. rewrite Hframe by lia.
    rewrite paste_px_in.
    + f_equal; lia.
    + apply in_bounds_true. simpl. nia.
    + apply in_bounds_true. lia.
  - intros k r x j Hk Hx Hj.
    specialize (Hband k r x j Hk Hx Hj).
    replace (1 - 1 + Z.of_nat k) with (Z.of_nat k) in Hband by lia.
    apply Hband. apply in_bounds_true. simpl.
    apply lookup_lt_Some in Hk. nia.
Qed.

(** Line 46 with a positive ratio: truncation is the floor, and the
    subtitle height is a natural number. *)
Lemma subtitle_height_floor (h : Z) (ratio : num) (q : spec_float) (sh : Z) :
  0 <= h -> is_positive ratio = true ->
  truediv h ratio = Ok q -> floor_of_float q = Ok sh ->
  subtitle_height_of h ratio = Ok sh /\ 0 <= sh.
Proof.
  intros Hh Hpos Hq Hfl.
  pose proof (truediv_sign _ _ _ Hh Hpos Hq) as Hs.
  rewrite <- (int_of_float_floor _ Hs) in Hfl.
  split.
  - unfold subtitle_height_of. by rewrite Hq.
  - by eapply int_of_float_nonneg.
Qed.

(** Line 46 with an int ratio: the subtitle height is the integer
    quotient. *)
Lemma subtitle_height_int_ratio (h r : Z) :
  0 < r -> 0 < h < 2 ^ 53 -> subtitle_height_of h (PyInt r) = Ok (h / r).
Proof.
  intros Hr Hh. unfold subtitle_height_of.
  destruct (Z_le_gt_dec r h) as [Hle|Hgt].
  - destruct (int_truediv_floor h r) as (q & Hq & Hint); [lia|lia|].
    simpl truediv. by rewrite Hq.
  - destruct (truediv_gt_zero h (PyInt r)) as (q & Hq & Hint);
      [lia|done|simpl; by apply Z.ltb_lt; lia|].
    rewrite Hq. simpl. rewrite Hint. by rewrite Z.div_small by lia.
Qed.

End CompositorFacts.

(* ================================================================== *)
(** * The claims about a run on a valid folder *)

Section Run.

Context {platform : Platform}.
Variable lanczos : Image -> Z -> Z -> Z -> Z -> Pixel.
Variables (w : World) (input_folder output_path : string).
Variable subtitle_ratio : num.
Variables (d : Directory) (first : Image) (rest resized_rest : list Image).

(** The folder exists and holds [d]; its PNG files, at least two, open as
    [first :: rest]; the later images rescale to [resized_rest]; the
    output path can be written, and the console encodes what is
    printed. *)
Hypothesis Hfolder : dirs w !! input_folder = Some d.
Hypothesis Htwo : (2 <= length (png_files d.*1))%nat.
Hypothesis Hopen : decode_all d (png_files d.*1) = Ok (first :: rest).
Hypothesis Hresize : resize_rest lanczos (width first) rest = Ok resized_rest.
Hypothesis Hsize : 0 < width first /\ 0 < height first.
Hypothesis Hwritable : output_path ∉ unwritable w.
Hypothesis Hconsole : forall o, encodes o = true.

Local Abbreviation N := (Z.of_nat (length (png_files d.*1))).
Local Abbreviation merge :=
  (merge_screenshots_with_subtitles lanczos input_folder output_path
     subtitle_ratio w).

Lemma images_count : Z.of_nat (length (first :: rest)) = N.
Proof. by rewrite (decode_all_length _ _ _ Hopen). Qed.

(** The run succeeds as soon as line 46 gives a natural number and Pillow
    grants the canvas and the bands. *)
Lemma run_ok (sh : Z) :
  subtitle_height_of (height first) subtitle_ratio = Ok sh -> 0 <= sh ->
  fits (width first) (height first + sh * (N - 1)) sh ->
  exists c,
    merge = (Ok PyNone,
             finished w output_path (new_image c)
               (report (png_files d.*1) output_path subtitle_ratio c)) /\
    stack_images lanczos (first :: rest) subtitle_ratio = Ok c /\
    target_width c = width first /\
    subtitle_height c = sh /\
    total_height c = height first + sh * (N - 1) /\
    width (new_image c) = width first /\
    height (new_image c) = height first + sh * (N - 1) /\
    (forall x y, 0 <= x < width first -> 0 <= y < height first ->
                 px (new_image c) x y = px first x y) /\
    (forall (k : nat) (r : Image) (x j : Z),
       resized_rest !! k = Some r -> 0 <= x < width first -> 0 <= j < sh ->
       px (new_image c) x (height first + sh * Z.of_nat k + j) =
         px (band sh (width first) r) x j).
Proof.
  intros Hsh Hsh0 Hfits. rewrite <- images_count in Hfits.
  destruct (stack_images_ok lanczos first rest resized_rest subtitle_ratio sh)
    as (c & Hc & Htw & Hs & Htot & Hcw & Hch & Hfirst & Hband);
    try done; try lia.
  rewrite images_count in Htot.
  exists c. split.
  - rewrite (merge_run _ _ _ _ _ _ Hfolder). cbv zeta.
    replace (length (png_files d.*1) <? 2)%nat with false
      by (symmetry; apply Nat.ltb_ge; lia).
    rewrite Hopen. cbv beta iota zeta delta [Ok]. fold (@Ok Composite c) in Hc.
    unfold Ok in Hc. rewrite Hc.
    rewrite bool_decide_false by done.
    rewrite (printed_all _ Hconsole), emitted_all; [done|].
    apply forallb_forall. by intros o _.
  - split; [done|]. split; [done|]. split; [done|]. split; [done|].
    split; [congruence|]. split; [congruence|]. done.
Qed.

Lemma resized_lookup (k : nat) (r : Image) :
  resized_rest !! k = Some r ->
  exists img, rest !! k = Some img /\
              normalize lanczos (width first) img = Ok r /\
              width r = width first.
Proof.
  intros Hk. destruct (resize_rest_lookup _ _ _ _ Hresize) as [_ Hl].
  apply Hl in Hk as (img & Hi & Hn). exists img.
  split; [done|]. split; [done|]. by eapply normalize_width.
Qed.

Lemma resized_exists (k : nat) (img : Image) :
  rest !! k = Some img ->
  exists r, resized_rest !! k = Some r /\
            normalize lanczos (width first) img = Ok r.
Proof.
  intros Hk. destruct (resize_rest_lookup _ _ _ _ Hresize) as [Hlen Hl].
  destruct (lookup_lt_is_Some_2 resized_rest k) as [r Hr].
  { rewrite Hlen. by eapply lookup_lt_Some. }
  exists r. split; [done|].
  apply Hl in Hr as (img' & Hi & Hn). congruence.
Qed.

Section Ratio.

(** The ratio is positive, and the quotient of the first height by it
    is a finite double [q] whose floor is [sh]; Pillow grants a canvas
    and bands of the sizes that follow. *)
Variables (q : spec_float) (sh : Z).
Hypothesis Hratio : is_positive subtitle_ratio = true.
Hypothesis Hq : truediv (height first) subtitle_ratio = Ok q.
Hypothesis Hfloor : floor_of_float q = Ok sh.
Hypothesis Hfits : fits (width first) (height first + sh * (N - 1)) sh.

Lemma line_46 :
  subtitle_height_of (height first) subtitle_ratio = Ok sh /\ 0 <= sh.
Proof. apply (subtitle_height_floor _ _ q); try done. lia. Qed.

(** C1. With N >= 2 qualifying images the run succeeds and saves a canvas
    whose width is the first (sorted) image's width and whose height is
    firstHeight + subtitleHeight * (N - 1), where subtitleHeight is the
    floor of firstHeight / subtitleRatio.  The quotient is computed in
    doubles: for a float ratio it is the IEEE quotient of float(firstHeight)
    by the ratio.  Its floor is the floor of the exact quotient for an int
    ratio, and for a float ratio whenever the exact quotient stays clear of
    the next integer, which the rounding of the double quotient could
    otherwise reach. *)
Theorem canvas_size :
  exists c,
    merge = (Ok PyNone,
             finished w output_path (new_image c)
               (report (png_files d.*1) output_path subtitle_ratio c)) /\
    subtitle_height c = sh /\
    width (new_image c) = width first /\
    height (new_image c) = height first + sh * (N - 1) /\
    (forall r, subtitle_ratio = PyInt r -> height first < 2 ^ 53 ->
               sh = Spec.subtitleHeight (height first) r 1) /\
    (forall m e, subtitle_ratio = PyFloat (S754_finite false m e) ->
       is_double subtitle_ratio = true -> e <= 0 -> height first < 2 ^ 53 ->
       clear_of_next (height first) (Zpos m) (2 ^ (- e)) ->
       sh = Spec.subtitleHeight (height first) (Zpos m) (2 ^ (- e))) /\
    (forall y, subtitle_ratio = PyFloat y ->
       exists x, float_of_int (height first) = Ok x /\
                 q = SFdiv prec emax x y).
Proof.
  destruct line_46 as [Hsh Hsh0].
  destruct (run_ok sh Hsh Hsh0 Hfits)
    as (c & Hrun & _ & _ & Hs & _ & Hw & Hh & _).
  exists c. split; [done|]. split; [done|]. split; [done|]. split; [done|].
  split; [|split].
  - intros r Hr Hbound. rewrite Hr in Hsh, Hratio.
    rewrite subtitle_height_int_ratio in Hsh.
    + unfold Spec.subtitleHeight. rewrite Z.mul_1_r. by injection Hsh.
    + unfold is_positive in Hratio. simpl in Hratio. lia.
    + lia.
  - intros m e Hr Hdouble He Hbound Hclear. rewrite Hr in Hsh, Hdouble.
    rewrite subtitle_height_float_ratio in Hsh; try done; [|lia].
    by injection Hsh.
  - intros y Hr. rewrite Hr in Hq. simpl in Hq.
    destruct (float_of_int (height first)) as [e|x]; [done|].
    exists x. split; [done|]. simpl in Hq. unfold float_truediv in Hq.
    destruct (is_zero y); [done|]. by injection Hq.
Qed.

(** C2. For every position p from 1 to N-1 in sorted order, the band
    pasted is the crop rectangle (0, height - subtitleHeight,
    targetWidth, height) of that image's normalized buffer: its bottom
    subtitleHeight rows at the full normalized width; it is pasted at
    horizontal offset 0 and vertical offset
    firstHeight + subtitleHeight * (p - 1). *)
Theorem subtitle_band_placement (p : Z) :
  1 <= p <= N - 1 ->
  exists c img r strip,
    merge = (Ok PyNone,
             finished w output_path (new_image c)
               (report (png_files d.*1) output_path subtitle_ratio c)) /\
    (first :: rest) !! Z.to_nat p = Some img /\
    normalize lanczos (width first) img = Ok r /\
    subtitle_band sh (width first) r = Ok strip /\
    crop r 0 (height r - sh) (width first) (height r) = Ok strip /\
    size strip = (width first, sh) /\
    (forall x j, 0 <= x < width first -> 0 <= j < sh ->
       px (new_image c) (0 + x) (height first + sh * (p - 1) + j) =
         px strip x j) /\
    (forall x j, 0 <= x < width first -> 0 <= j < sh ->
       0 <= height r - sh + j ->
       px strip x j = px r x (height r - sh + j)).
Proof.
  intros Hp. destruct line_46 as [Hsh Hsh0].
  destruct (run_ok sh Hsh Hsh0 Hfits)
    as (c & Hrun & _ & _ & _ & _ & _ & _ & _ & Hband).
  pose proof images_count as Hcount. simpl length in Hcount.
  destruct (lookup_lt_is_Some_2 rest (Z.to_nat (p - 1))) as [img Himg]; [lia|].
  destruct (resized_exists _ _ Himg) as (r & Hr & Hn).
  destruct (resized_lookup _ _ Hr) as (_ & _ & _ & Hwr).
  assert (Hstrip : subtitle_band sh (width first) r
                   = Ok (band sh (width first) r)).
  { apply subtitle_band_ok; [lia|lia|]. by destruct Hfits as (_ & _ & _ & ?). }
  exists c, img, r, (band sh (width first) r).
  split; [done|]. split.
  { replace (Z.to_nat p) with (S (Z.to_nat (p - 1))) by lia. done. }
  split; [done|]. split; [done|]. split; [done|]. split.
  { unfold size. destruct (band_size sh (width first) r) as [-> ->]. done. }
  split.
  - intros x j Hx Hj.
    specialize (Hband _ _ x j Hr Hx Hj).
    replace (Z.of_nat (Z.to_nat (p - 1))) with (p - 1) in Hband by lia.
    by rewrite Z.add_0_l.
  - intros x j Hx Hj Hin. unfold band, region; simpl.
    replace (in_bounds r (x + 0) (j + (height r - sh))) with true.
    + f_equal; lia.
    + symmetry. apply in_bounds_true. lia.
Qed.

(** C6, as the code has it.  For every valid input the operation saves
    the composite canvas under the output path and returns [None]; the
    canvas is not the result value. *)
Theorem returns_none :
  exists c,
    stack_images lanczos (first :: rest) subtitle_ratio = Ok c /\
    fst merge = Ok PyNone /\
    saved (snd merge) = (output_path, new_image c) :: saved w.
Proof.
  destruct line_46 as [Hsh Hsh0].
  destruct (run_ok sh Hsh Hsh0 Hfits) as (c & Hrun & Hc & _).
  exists c. by rewrite Hrun.
Qed.

(** C7. The first (sorted) image is never resized: its own pixels, at its
    own size, fill the canvas from the origin (0,0) over its full height;
    and every later image whose width already equals the target width
    passes through normalization unchanged. *)
Theorem first_image_kept :
  exists c,
    merge = (Ok PyNone,
             finished w output_path (new_image c)
               (report (png_files d.*1) output_path subtitle_ratio c)) /\
    target_width c = width first /\
    (forall x y, 0 <= x < width first -> 0 <= y < height first ->
                 px (new_image c) (0 + x) (0 + y) = px first x y) /\
    (forall (k : nat) (img : Image),
       rest !! k = Some img -> width img = width first ->
       normalize lanczos (width first) img = Ok img /\
       resized_rest !! k = Some img).
Proof.
  destruct line_46 as [Hsh Hsh0].
  destruct (run_ok sh Hsh Hsh0 Hfits)
    as (c & Hrun & _ & Htw & _ & _ & _ & _ & Hfirst & _).
  exists c. split; [done|]. split; [done|]. split.
  - intros x y Hx Hy. rewrite !Z.add_0_l. by apply Hfirst.
  - intros k img Hk Hw.
    pose proof (normalize_same lanczos _ _ Hw) as Hn. split; [done|].
    destruct (resized_exists _ _ Hk) as (r & Hr & Hn').
    rewrite Hn in Hn'. by injection Hn' as <-.
Qed.

(** C9. When a later image's normalized height is below subtitleHeight,
    nothing is rejected and nothing is clamped: the crop's top coordinate
    height - subtitleHeight is negative, the band still has height
    subtitleHeight (the rows above the image are filled with the image's
    zero colour), and the merge completes and saves its output. *)
Theorem short_image_band (k : nat) (r : Image) :
  resized_rest !! k = Some r -> height r < sh ->
  exists c strip,
    merge = (Ok PyNone,
             finished w output_path (new_image c)
               (report (png_files d.*1) output_path subtitle_ratio c)) /\
    height r - sh < 0 /\
    subtitle_band sh (width first) r = Ok strip /\
    crop r 0 (height r - sh) (width first) (height r) = Ok strip /\
    size strip = (width first, sh) /\
    (forall x j, 0 <= x < width first -> 0 <= j < sh ->
       px (new_image c) x (height first + sh * Z.of_nat k + j) = px strip x j) /\
    (forall x j, 0 <= j < sh - height r -> px strip x j = zero r).
Proof.
  intros Hr Hshort. destruct line_46 as [Hsh Hsh0].
  destruct (run_ok sh Hsh Hsh0 Hfits)
    as (c & Hrun & _ & _ & _ & _ & _ & _ & _ & Hband).
  assert (Hstrip : subtitle_band sh (width first) r
                   = Ok (band sh (width first) r)).
  { apply subtitle_band_ok; [lia|lia|]. by destruct Hfits as (_ & _ & _ & ?). }
  exists c, (band sh (width first) r).
  split; [done|]. split; [lia|]. split; [done|]. split; [done|]. split.
  { unfold size. destruct (band_size sh (width first) r) as [-> ->]. done. }
  split.
  - intros x j Hx Hj. by apply Hband.
  - intros x j Hj. unfold band, region; simpl.
    replace (in_bounds r (x + 0) (j + (height r - sh))) with false; [done|].
    symmetry. apply in_bounds_false. lia.
Qed.

End Ratio.

(** C10. With N >= 2 images and a subtitleRatio strictly greater than the
    first image's height, subtitleHeight computes to 0, the canvas height
    is exactly the first image's height, every subtitle band the second
    loop takes is an empty crop of height zero, so that the canvas is the
    first image and nothing else, and the operation still succeeds.
    (Every Pillow image is lower than 2^53 pixels.) *)
Theorem ratio_above_height :
  is_double subtitle_ratio = true ->
  gt_int subtitle_ratio (height first) = true ->
  height first < 2 ^ 53 ->
  fits (width first) (height first) 0 ->
  exists c,
    merge = (Ok PyNone,
             finished w output_path (new_image c)
               (report (png_files d.*1) output_path subtitle_ratio c)) /\
    subtitle_height_of (height first) subtitle_ratio = Ok 0 /\
    subtitle_height c = 0 /\
    height (new_image c) = height first /\
    (forall r, r ∈ resized_rest ->
       exists strip,
         subtitle_band (subtitle_height c) (target_width c) r = Ok strip /\
         size strip = (width first, 0)) /\
    (forall x y, in_bounds (new_image c) x y = true ->
       px (new_image c) x y = px first x y).
Proof.
  intros Hdouble Hgt Hbound Hfits.
  destruct (truediv_gt_zero (height first) subtitle_ratio) as (q & Hq & Hint);
    [lia|done|done|].
  assert (Hsh : subtitle_height_of (height first) subtitle_ratio = Ok 0).
  { unfold subtitle_height_of. by rewrite Hq. }
  assert (Hfits' : fits (width first) (height first + 0 * (N - 1)) 0)
    by (by rewrite Z.mul_0_l, Z.add_0_r).
  destruct (run_ok 0 Hsh ltac:(lia) Hfits')
    as (c & Hrun & _ & Htw & Hs & _ & Hw & Hh & Hfirst & _).
  exists c. split; [done|]. split; [done|]. split; [done|].
  split; [lia|]. split.
  - intros r _. exists (band 0 (width first) r). rewrite Hs, Htw. split.
    + apply subtitle_band_ok; [lia|lia|]. by destruct Hfits as (_ & _ & _ & ?).
    + unfold size. by destruct (band_size 0 (width first) r) as [-> ->].
  - intros x y Hin. apply in_bounds_true in Hin. apply Hfirst; lia.
Qed.

(** C3, as the code has it.  For every later image whose width differs
    from the target width, the rescaled height is
    int(originalHeight * (targetWidth / originalWidth)): the product of
    doubles cut toward zero, not rounded to the nearest integer; the image
    is resampled to (targetWidth, newHeight).  In particular an image of
    width 400 and height 300 under a reference width of 800 becomes
    800 by 600. *)
Theorem rescaled_height (k : nat) (img : Image) :
  rest !! k = Some img -> width img <> width first ->
  exists ratio scaled h r,
    int_truediv (width first) (width img) = Ok ratio /\
    int_mul_float (height img) ratio = Ok scaled /\
    int_of_float scaled = Ok h /\
    resized_rest !! k = Some r /\
    size r = (width first, h) /\
    px r = lanczos img (width first) h /\
    (width first = 800 -> size img = (400, 300) -> size r = (800, 600)).
Proof.
  intros Hk Hw.
  destruct (resized_exists _ _ Hk) as (r & Hr & Hn).
  destruct (normalize_resized lanczos _ _ _ Hw Hn) as (h & Hh & _ & _ & ->).
  unfold new_height in Hh.
  destruct (int_truediv (width first) (width img)) as [e|ratio] eqn:Hratio;
    [done|].
  cbv beta iota zeta delta [rbind] in Hh.
  destruct (int_mul_float (height img) ratio) as [e|scaled] eqn:Hscaled;
    [done|].
  exists ratio, scaled, h,
    (mkImage (width first) h (lanczos img (width first) h) (zero img)).
  split; [done|]. split; [done|]. split; [done|]. split; [done|].
  split; [done|]. split; [done|].
  intros H800 [= H400 H300]. rewrite H800, H400 in Hratio.
  vm_compute in Hratio. injection Hratio as <-.
  rewrite H300 in Hscaled. vm_compute in Hscaled. injection Hscaled as <-.
  vm_compute in Hh. injection Hh as <-. unfold size; simpl. by rewrite H800.
Qed.

End Run.

(* ================================================================== *)
(** * The claims about every folder *)

Section AnyFolder.

Context {platform : Platform}.
Variable lanczos : Image -> Z -> Z -> Z -> Z -> Pixel.
Variables (input_folder output_path : string) (subtitle_ratio : num).

Local Abbreviation merge :=
  (merge_screenshots_with_subtitles lanczos input_folder output_path
     subtitle_ratio).

(** C4. With fewer than two qualifying files in the folder the operation
    fails with the validation error before anything is opened, and the
    world is left as it was: no output file is written. *)
Theorem too_few_images_rejected (w : World) (d : Directory) :
  dirs w !! input_folder = Some d ->
  (length (List.filter is_png d.*1) < 2)%nat ->
  merge w = (Raise (ValueError too_few_images), w).
Proof.
  intros Hd Hlen. rewrite (merge_run _ _ _ _ _ _ Hd). cbv zeta.
  rewrite (Permutation_length (png_files_Permutation d.*1)).
  by replace (length (List.filter is_png d.*1) <? 2)%nat with true
    by (symmetry; apply Nat.ltb_lt; lia).
Qed.

(** Two listings of one folder, with the output path locked in both
    worlds or in neither, give the same result of lines 20-75. *)
Lemma run_result_same (w1 w2 : World) (d1 d2 : Directory) :
  NoDup d1.*1 -> same_directory d1 d2 ->
  (output_path ∈ unwritable w1 <-> output_path ∈ unwritable w2) ->
  run_result lanczos (Some d1)
    (bool_decide (output_path ∈ unwritable w1)) subtitle_ratio =
  run_result lanczos (Some d2)
    (bool_decide (output_path ∈ unwritable w2)) subtitle_ratio.
Proof.
  intros Hnd Hsame Hlock.
  assert (Hfiles : png_files d2.*1 = png_files d1.*1).
  { symmetry. by apply png_files_order, same_directory_names. }
  unfold run_result. rewrite Hfiles.
  rewrite (decode_all_same d1 d2)
    by (intros n; by apply same_directory_find).
  by rewrite (bool_decide_ext _ _ Hlock).
Qed.


(** C8. The operation is deterministic: run a second time, in whatever
    world the first run and anything else have left, on an input folder
    that still holds the same files (listed in any order) and with the
    same ratio, it ends the same way and, when it succeeds, saves the very
    same canvas.  Nothing but the folder's contents and the lock on the
    output path is read. *)
Theorem merge_deterministic (w1 w2 : World) (d1 d2 : Directory) :
  dirs w1 !! input_folder = Some d1 ->
  dirs w2 !! input_folder = Some d2 ->
  NoDup d1.*1 -> same_directory d1 d2 ->
  (output_path ∈ unwritable w1 <-> output_path ∈ unwritable w2) ->
  fst (merge w1) = fst (merge w2) /\
  (fst (merge w1) = Ok PyNone ->
   exists canvas,
     saved (snd (merge w1)) = (output_path, canvas) :: saved w1 /\
     saved (snd (merge w2)) = (output_path, canvas) :: saved w2).
Proof.
  intros Hd1 Hd2 Hnd Hsame Hlock.
  pose proof (run_result_same w1 w2 d1 d2 Hnd Hsame Hlock) as Hres.
  rewrite !merge_spec, Hd1, Hd2, <- Hres.
  destruct (run_result lanczos (Some d1) _ subtitle_ratio) as [e|[files c]];
    cbn [fst snd saved finished].
  - split; [done|]. unfold Ok. by intros [=].
  - split; [done|]. intros _. by exists (new_image c).
Qed.

End AnyFolder.

(* ================================================================== *)
(** * The claims on the sample folder *)

Section OnSample.

Import Sample.

Local Abbreviation files := (png_files shots.*1).

(** The scenario of the specification: a first image 600 high and a ratio
    of 5 give bands of 120 rows; the default ratio 6 gives 100 and the ratio
    3.5 of the usage example gives 171. *)
Example subtitle_height_scenario :
  subtitle_height_of 600 (PyInt 5) = Ok 120 /\
  subtitle_height_of 600 (PyInt 6) = Ok 100 /\
  subtitle_height_of 600 (PyFloat three_and_a_half) = Ok 171.
Proof. by vm_compute. Qed.

(** The quotient of line 46 is a double.  The double nearest to one tenth
    lies above it, so the exact quotient of 600 by it lies below 6000, by
    less than the rounding of the quotient: the double quotient is 6000.0. *)
Example subtitle_height_in_doubles :
  subtitle_height_of 600 (PyFloat one_tenth) = Ok 6000 /\
  Spec.subtitleHeight 600 7205759403792794 (2 ^ 56) = 5999 /\
  ~ clear_of_next 600 7205759403792794 (2 ^ 56).
Proof.
  split; [by vm_compute|]. split; [by vm_compute|].
  unfold clear_of_next. vm_compute. intros Hle. by apply Hle.
Qed.

(** The rescaled height is computed in doubles: for an image 116 by 145
    under a width of 800 the exact height 145 * 800 / 116 is 1000, and the
    code gets 999. *)
Example rescaled_height_in_doubles :
  new_height 800 img_odd = Ok 999 /\ 145 * 800 = 1000 * 116.
Proof. by vm_compute. Qed.

Lemma canvas_size_witness :
  exists c,
    run (PyFloat three_and_a_half) (world shots) =
      (Ok PyNone,
       finished (world shots) "out.png" (new_image c)
         (report files "out.png" (PyFloat three_and_a_half) c)) /\
    subtitle_height c = 1 /\
    width (new_image c) = 4 /\
    height (new_image c) = 6 + 1 * (Z.of_nat (length files) - 1) /\
    (forall r, PyFloat three_and_a_half = PyInt r -> 6 < 2 ^ 53 ->
               1 = Spec.subtitleHeight 6 r 1) /\
    (forall m e, PyFloat three_and_a_half = PyFloat (S754_finite false m e) ->
       is_double (PyFloat three_and_a_half) = true -> e <= 0 -> 6 < 2 ^ 53 ->
       clear_of_next 6 (Zpos m) (2 ^ (- e)) ->
       1 = Spec.subtitleHeight 6 (Zpos m) (2 ^ (- e))) /\
    (forall y, PyFloat three_and_a_half = PyFloat y ->
       exists x, float_of_int 6 = Ok x /\
                 twelve_sevenths = SFdiv prec emax x y).
Proof.
  apply (canvas_size nearest (world shots) "shots" "out.png"
           (PyFloat three_and_a_half)
           shots img_a [img_b; img_c] [img_b; img_c_resized]
           eq_refl ltac:(vm_compute; lia) eq_refl eq_refl
           ltac:(simpl; lia) ltac:(apply not_elem_of_nil) (fun _ => eq_refl)
           twelve_sevenths 1 eq_refl eq_refl eq_refl
           ltac:(repeat split; by vm_compute)).
Defined.

(** On the sample, the floor of the exact quotient of 6 by 3.5, which is
    the fraction 7 / 2, is 1; the quotient stays clear of 2. *)
Example canvas_size_exact_floor :
  clear_of_next 6 7881299347898368 (2 ^ 51) /\
  Spec.subtitleHeight 6 7881299347898368 (2 ^ 51) = 1 /\
  Spec.subtitleHeight 6 7 2 = 1.
Proof.
  split; [|by vm_compute]. unfold clear_of_next. by vm_compute.
Qed.

Lemma subtitle_band_placement_witness :
  exists c img r strip,
    run (PyInt 3) (world shots) =
      (Ok PyNone,
       finished (world shots) "out.png" (new_image c)
         (report files "out.png" (PyInt 3) c)) /\
    [img_a; img_b; img_c] !! Z.to_nat 2 = Some img /\
    normalize nearest 4 img = Ok r /\
    subtitle_band 2 4 r = Ok strip /\
    crop r 0 (height r - 2) 4 (height r) = Ok strip /\
    size strip = (4, 2) /\
    (forall x j, 0 <= x < 4 -> 0 <= j < 2 ->
       px (new_image c) (0 + x) (6 + 2 * (2 - 1) + j) = px strip x j) /\
    (forall x j, 0 <= x < 4 -> 0 <= j < 2 -> 0 <= height r - 2 + j ->
       px strip x j = px r x (height r - 2 + j)).
Proof.
  apply (subtitle_band_placement nearest (world shots) "shots" "out.png"
           (PyInt 3) shots img_a [img_b; img_c] [img_b; img_c_resized]
           eq_refl ltac:(vm_compute; lia) eq_refl eq_refl
           ltac:(simpl; lia) ltac:(apply not_elem_of_nil) (fun _ => eq_refl)
           two 2 eq_refl eq_refl eq_refl ltac:(repeat split; by vm_compute)
           2 ltac:(change (1 <= 2 <= 3 - 1); lia)).
Defined.

Lemma returns_none_witness :
  exists c,
    stack_images nearest [img_a; img_b; img_c] (PyInt 3) = Ok c /\
    fst (run (PyInt 3) (world shots)) = Ok PyNone /\
    saved (snd (run (PyInt 3) (world shots))) = [("out.png"%string, new_image c)].
Proof.
  apply (returns_none nearest (world shots) "shots" "out.png" (PyInt 3)
           shots img_a [img_b; img_c] [img_b; img_c_resized]
           eq_refl ltac:(vm_compute; lia) eq_refl eq_refl
           ltac:(simpl; lia) ltac:(apply not_elem_of_nil) (fun _ => eq_refl)
           two 2 eq_refl eq_refl eq_refl ltac:(repeat split; by vm_compute)).
Defined.

Lemma first_image_kept_witness :
  exists c,
    run (PyInt 3) (world shots) =
      (Ok PyNone,
       finished (world shots) "out.png" (new_image c)
         (report files "out.png" (PyInt 3) c)) /\
    target_width c = 4 /\
    (forall x y, 0 <= x < 4 -> 0 <= y < 6 ->
                 px (new_image c) (0 + x) (0 + y) = px img_a x y) /\
    (forall (k : nat) (img : Image),
       [img_b; img_c] !! k = Some img -> width img = 4 ->
       normalize nearest 4 img = Ok img /\
       [img_b; img_c_resized] !! k = Some img).
Proof.
  apply (first_image_kept nearest (world shots) "shots" "out.png" (PyInt 3)
           shots img_a [img_b; img_c] [img_b; img_c_resized]
           eq_refl ltac:(vm_compute; lia) eq_refl eq_refl
           ltac:(simpl; lia) ltac:(apply not_elem_of_nil) (fun _ => eq_refl)
           two 2 eq_refl eq_refl eq_refl ltac:(repeat split; by vm_compute)).
Defined.

(** A folder whose second image is lower than the band and has a
    palette: the row above it is filled with the first colour of the
    palette. *)
Lemma short_image_band_witness :
  exists c strip,
    merge_screenshots_with_subtitles nearest "shots" "out.png" (PyInt 3)
      (world MoreSamples.palette_shots) =
      (Ok PyNone,
       finished (world MoreSamples.palette_shots) "out.png" (new_image c)
         (report (png_files MoreSamples.palette_shots.*1) "out.png"
            (PyInt 3) c)) /\
    1 - 2 < 0 /\
    subtitle_band 2 4 img_p = Ok strip /\
    crop img_p 0 (1 - 2) 4 1 = Ok strip /\
    size strip = (4, 2) /\
    (forall x j, 0 <= x < 4 -> 0 <= j < 2 ->
       px (new_image c) x (6 + 2 * Z.of_nat 0 + j) = px strip x j) /\
    (forall x j, 0 <= j < 2 - 1 -> px strip x j = red).
Proof.
  apply (short_image_band nearest (world MoreSamples.palette_shots)
           "shots" "out.png" (PyInt 3)
           MoreSamples.palette_shots img_a [img_p] [img_p]
           eq_refl ltac:(vm_compute; lia) eq_refl eq_refl
           ltac:(simpl; lia) ltac:(apply not_elem_of_nil) (fun _ => eq_refl)
           two 2 eq_refl eq_refl eq_refl ltac:(repeat split; by vm_compute)
           0%nat img_p eq_refl ltac:(simpl; lia)).
Defined.

Lemma ratio_above_height_witness :
  exists c,
    run (PyFloat six_and_a_half) (world shots) =
      (Ok PyNone,
       finished (world shots) "out.png" (new_image c)
         (report files "out.png" (PyFloat six_and_a_half) c)) /\
    subtitle_height_of 6 (PyFloat six_and_a_half) = Ok 0 /\
    subtitle_height c = 0 /\
    height (new_image c) = 6 /\
    (forall r, r ∈ [img_b; img_c_resized] ->
       exists strip,
         subtitle_band (subtitle_height c) (target_width c) r = Ok strip /\
         size strip = (4, 0)) /\
    (forall x y, in_bounds (new_image c) x y = true ->
       px (new_image c) x y = px img_a x y).
Proof.
  apply (ratio_above_height nearest (world shots) "shots" "out.png"
           (PyFloat six_and_a_half)
           shots img_a [img_b; img_c] [img_b; img_c_resized]
           eq_refl ltac:(vm_compute; lia) eq_refl eq_refl
           ltac:(simpl; lia) ltac:(apply not_elem_of_nil) (fun _ => eq_refl)
           eq_refl eq_refl ltac:(simpl; lia)
           ltac:(repeat split; by vm_compute)).
Defined.

Lemma rescaled_height_witness :
  exists ratio scaled h r,
    int_truediv 4 2 = Ok ratio /\
    int_mul_float 3 ratio = Ok scaled /\
    int_of_float scaled = Ok h /\
    [img_b; img_c_resized] !! 1%nat = Some r /\
    size r = (4, h) /\
    px r = nearest img_c 4 h /\
    (4 = 800 -> size img_c = (400, 300) -> size r = (800, 600)).
Proof.
  apply (rescaled_height (platform := desktop) nearest img_a [img_b; img_c]
           [img_b; img_c_resized]
           eq_refl 1%nat img_c eq_refl ltac:(simpl; lia)).
Defined.

Lemma too_few_images_rejected_witness :
  merge_screenshots_with_subtitles nearest "shots" "out.png" (PyInt 6)
    (world lonely) =
  (Raise (ValueError too_few_images), world lonely).
Proof.
  apply (too_few_images_rejected nearest "shots" "out.png" (PyInt 6)
           (world lonely) lonely eq_refl ltac:(vm_compute; lia)).
Defined.

Lemma shots_relisted : same_directory shots shots'.
Proof.
  unfold same_directory.
  change (contents shots') with (reverse (contents shots)).
  by rewrite reverse_Permutation.
Defined.

Lemma shots_names_NoDup : NoDup shots.*1.
Proof. apply (bool_decide_unpack _). by vm_compute. Defined.

(** The filter ignores case and the sort does not: "b.PNG" is taken, and
    by byte order it comes before "b.png" would. *)
Example png_files_sample :
  files = ["a.png"; "b.PNG"; "c.png"]%string /\
  is_png "b.PNG" = true /\ is_png "notes.txt" = false /\
  Spec.ends_with_ignoring_case "b.PNG" ".png".
Proof.
  split; [by vm_compute|]. split; [by vm_compute|]. split; [by vm_compute|].
  by exists "b"%string, ".PNG"%string.
Qed.


(** The second run starts from a world the first one has left its
    output in, where the folder is listed in another order. *)
Lemma merge_deterministic_witness :
  fst (run (PyInt 3) (world shots)) = fst (run (PyInt 3) later_world) /\
  (fst (run (PyInt 3) (world shots)) = Ok PyNone ->
   exists canvas,
     saved (snd (run (PyInt 3) (world shots))) =
       ("out.png"%string, canvas) :: saved (world shots) /\
     saved (snd (run (PyInt 3) later_world)) =
       ("out.png"%string, canvas) :: saved later_world).
Proof.
  apply (merge_deterministic nearest "shots" "out.png" (PyInt 3)
           (world shots) later_world shots shots'
           eq_refl eq_refl shots_names_NoDup shots_relisted).
  done.
Defined.

(** The output path of the samples lies outside the folder, which a run
    therefore leaves as it was. *)
Example folder_untouched :
  dirs (snd (run (PyInt 3) (world shots))) !! "shots"%string = Some shots.
Proof. reflexivity. Qed.

(** Two runs agree on an unchanged folder only.  With the output path
    inside the input folder, the image the first run saves is listed by
    the second, which stacks four images where the first stacked three. *)
Example rerun_inside_folder :
  let again := merge_screenshots_with_subtitles nearest "shots"
                 "shots/out.png" (PyInt 3) in
  (height ∘ snd) <$> head (saved (snd (again (world shots)))) = Some 10 /\
  (height ∘ snd) <$>
    head (saved (snd (again (snd (again (world shots)))))) = Some 12.
Proof. split; reflexivity. Qed.

(** C3 fails as the specification words it: a later image 300 by 100
    under a reference width of 800 gets height 266, where rounding
    80000 / 300 to the nearest integer gives 267. *)
Lemma rounding_counterexample :
  width img_wide <> width img_ref /\
  exists r,
    resize_rest nearest (width img_ref) [img_wide] = Ok [r] /\
    height r = 266 /\
    Spec.newHeight (width img_ref) img_wide = 267 /\
    height r <> Spec.newHeight (width img_ref) img_wide.
Proof.
  split; [by vm_compute|]. eexists. split; [reflexivity|].
  split; [reflexivity|]. split; [reflexivity|]. by vm_compute.
Qed.

(** C6 fails as the specification words it: on the sample folder the
    operation succeeds, saves the canvas, and returns [None], not the
    canvas. *)
Lemma returns_canvas_counterexample :
  exists canvas,
    saved (snd (run (PyInt 3) (world shots))) = [("out.png"%string, canvas)] /\
    fst (run (PyInt 3) (world shots)) = Ok PyNone /\
    fst (run (PyInt 3) (world shots)) <> Ok (PyImage canvas).
Proof.
  eexists. split; [reflexivity|].
  assert (Hrun : fst (run (PyInt 3) (world shots)) = Ok PyNone) by reflexivity.
  split; [done|]. rewrite Hrun. unfold Ok. by intros [=].
Qed.

End OnSample.

(* ================================================================== *)
(** * Further facts about binary64 arithmetic: exact results *)

Section ExactFloats.

(** An integer below 2^53, held exactly with an exponent that is not
    positive, passes through the rounding unchanged. *)
Lemma binary_round_aux_exact (mx ex n : Z) :
  ex <= 0 -> 1 <= n < 2 ^ 53 -> mx = n * 2 ^ (- ex) ->
  exists m e,
    binary_round_aux prec emax false mx ex loc_Exact = S754_finite false m e /\
    e <= 0 /\ Zpos m = n * 2 ^ (- e).
Proof.
  intros Hex Hn Hmx. unfold binary_round_aux, shr_fexp.
  pose proof (pow2_pos (- ex) ltac:(lia)) as Hpx.
  assert (Hmx0 : 0 <= mx) by nia.
  (* first shift *)
  destruct (shr_inv_shift (shr_record_of_loc mx loc_Exact) ex
              (fexp prec emax (Zdigits2 mx + ex) - ex) mx 1)
    as (k & Hk0 & Hkpos & Hknp & He1 & Hinv1);
    [lia|by apply shr_inv_exact|].
  destruct (shr (shr_record_of_loc mx loc_Exact) ex _) as [mrs1 e1];
    simpl in He1, Hinv1.
  assert (He1' : e1 <= 0).
  { destruct (Z_lt_le_dec 0 (fexp prec emax (Zdigits2 mx + ex) - ex)) as [Hs|Hs];
      [|lia].
    assert (Hdig : Zdigits2 mx <= 53 + - ex).
    { apply Zdigits2_le; [|lia]. split; [done|].
      rewrite pow2_split by lia. nia. }
    unfold fexp, emin, prec, emax in *. lia. }
  assert (Hpow : 2 ^ (- ex) = 2 ^ k * 2 ^ (- e1)).
  { rewrite <- pow2_split by lia. f_equal. lia. }
  pose proof (pow2_pos k Hk0) as Hk2.
  pose proof (pow2_pos (- e1) ltac:(lia)) as Hj2.
  destruct Hinv1 as (Hm1 & [Hlo1 Hhi1] & Hr1).
  assert (Hm1eq : shr_m mrs1 = n * 2 ^ (- e1)).
  { rewrite Hmx, Hpow in Hlo1, Hhi1. nia. }
  set (m2 := round_nearest_even (shr_m mrs1) (loc_of_shr_record mrs1)).
  assert (Hm2 : m2 = n * 2 ^ (- e1)).
  { destruct (round_nearest_even_cases mrs1) as [Heq|[Heq Hrt]];
      fold m2 in Heq; [by rewrite Heq|].
    exfalso. specialize (Hr1 Hrt). rewrite Hmx, Hpow, Hm1eq in Hr1. nia. }
  (* second shift *)
  assert (Hm20 : 0 <= m2) by nia.
  destruct (shr_inv_shift (shr_record_of_loc m2 loc_Exact) e1
              (fexp prec emax (Zdigits2 m2 + e1) - e1) m2 1)
    as (k2 & Hk20 & Hk2pos & Hk2np & He2 & Hinv2);
    [lia|by apply shr_inv_exact|].
  destruct (shr (shr_record_of_loc m2 loc_Exact) e1 _) as [mrs2 e2];
    simpl in He2, Hinv2.
  destruct Hinv2 as (Hm3 & [Hlo3 Hhi3] & _).
  pose proof (pow2_pos k2 Hk20) as Hk22.
  assert (He2' : e2 <= 0).
  { destruct (Z_lt_le_dec 0 (fexp prec emax (Zdigits2 m2 + e1) - e1)) as [Hs|Hs];
      [|lia].
    assert (Hdig : Zdigits2 m2 <= 53 + - e1).
    { apply Zdigits2_le; [|lia]. split; [done|].
      rewrite pow2_split by lia. nia. }
    unfold fexp, emin, prec, emax in *. lia. }
  assert (HJ : 2 ^ (- e1) = 2 ^ k2 * 2 ^ (- e2)).
  { rewrite <- pow2_split by lia. f_equal. lia. }
  pose proof (pow2_pos (- e2) ltac:(lia)) as Hj3.
  assert (Hm3eq : shr_m mrs2 = n * 2 ^ (- e2)).
  { rewrite Hm2, HJ in Hlo3, Hhi3. nia. }
  destruct (shr_m mrs2) as [|m3|m3] eqn:Hm3e; [nia| |nia].
  replace (e2 <=? emax - prec) with true
    by (symmetry; apply Z.leb_le; unfold emax, prec; lia).
  by exists m3, e2.
Qed.

Lemma new_location_zero (d : Z) : new_location d 0 = loc_Exact.
Proof.
  unfold new_location, new_location_even, new_location_odd.
  by destruct (Z.even d).
Qed.

(** [h / r] for ints with [r] dividing [h]: the quotient, exactly. *)
Lemma int_truediv_exact (r k : Z) :
  0 < r -> 1 <= k -> k * r < 2 ^ 53 ->
  exists m e,
    int_truediv (k * r) r = Ok (S754_finite false m e) /\
    e <= 0 /\ Zpos m = k * 2 ^ (- e).
Proof.
  intros Hr Hk Hh. unfold int_truediv.
  replace (r =? 0) with false by (symmetry; apply Z.eqb_neq; lia).
  assert (Hrh : r <= k * r) by nia.
  destruct (k * r) as [|ph|ph] eqn:Hkr; try lia.
  destruct r as [|pr|pr]; try lia.
  simpl exact_int. simpl SFdiv. unfold SFdiv_core_binary.
  set (d1 := Zdigits2 (Zpos ph)). set (d2 := Zdigits2 (Zpos pr)).
  assert (Hd1 : 0 < d1 <= 53).
  { unfold d1. split; [simpl; lia|]. apply Zdigits2_le; lia. }
  assert (Hd2 : 0 < d2 <= d1).
  { unfold d1, d2. split; [simpl; lia|]. simpl. apply digits2_pos_mono. lia. }
  replace (Z.min (fexp prec emax (d1 + 0 - (d2 + 0))) (0 - 0))
    with (d1 - d2 - 53) by (unfold fexp, emin, prec, emax; lia).
  set (s := 53 - (d1 - d2)). assert (Hs : 0 < s) by (unfold s; lia).
  replace (0 - 0 - (d1 - d2 - 53)) with s by (unfold s; lia).
  replace (d1 - d2 - 53) with (- s) by (unfold s; lia).
  match goal with
  | |- context [IntDef.Z.div_eucl ?m _] => set (m' := m)
  end.
  assert (Hm' : m' = Zpos ph * 2 ^ s).
  { unfold m'. destruct s as [|p|p] eqn:E; try lia.
    change (IntDef.Z.shiftl (Zpos ph) (Zpos p)) with (Z.shiftl (Zpos ph) (Zpos p)).
    by rewrite Z.shiftl_mul_pow2. }
  change (IntDef.Z.div_eucl m' (Zpos pr)) with (Z.div_eucl m' (Zpos pr)).
  pose proof (Z_div_mod m' (Zpos pr) eq_refl) as Hdiv.
  destruct (Z.div_eucl m' (Zpos pr)) as [q0 r0]. destruct Hdiv as [Hqr Hr0].
  pose proof (pow2_pos s ltac:(lia)) as Hs2.
  assert (Hexact : q0 = k * 2 ^ s /\ r0 = 0).
  { rewrite Hm', <- Hkr in Hqr.
    assert (Hq : Zpos pr * (k * 2 ^ s - q0) = r0) by lia.
    assert (k * 2 ^ s - q0 = 0) by nia. lia. }
  destruct Hexact as [-> ->]. rewrite new_location_zero.
  destruct (binary_round_aux_exact (k * 2 ^ s) (- s) k) as (m & e & Hres & He & Hm);
    [lia| |by rewrite Z.opp_involutive|].
  { split; [lia|]. nia. }
  rewrite Hres. simpl. by exists m, e.
Qed.

(** [h * q] for an int [h] and a double [q] holding the integer [k], the
    product below 2^53: the product, exactly. *)
Lemma int_mul_float_exact (h k : Z) (m : positive) (e : Z) :
  0 < h -> 1 <= k -> h * k < 2 ^ 53 ->
  e <= 0 -> Zpos m = k * 2 ^ (- e) ->
  exists f,
    int_mul_float h (S754_finite false m e) = Ok f /\
    int_of_float f = Ok (h * k).
Proof.
  intros Hh Hk Hhk He Hm.
  destruct (float_of_int_exact h) as (mx & ex & Hx & Hex & Hmx & _); [nia|].
  unfold int_mul_float. rewrite Hx. simpl rbind. simpl SFmul.
  pose proof (pow2_pos (- ex) ltac:(lia)) as Hpx.
  pose proof (pow2_pos (- e) ltac:(lia)) as Hpe.
  destruct (binary_round_aux_exact (Zpos (mx * m)) (ex + e) (h * k))
    as (m' & e' & Hres & He' & Hm'); [lia|nia| |].
  { rewrite Pos2Z.inj_mul, Hmx, Hm.
    replace (- (ex + e)) with (- ex + - e) by lia.
    rewrite pow2_split by lia. ring. }
  rewrite Hres. eexists. split; [done|]. simpl. f_equal.
  rewrite Z.shiftl_div_pow2 by lia. rewrite Hm'.
  apply Z.div_mul. pose proof (pow2_pos (- e') ltac:(lia)). lia.
Qed.

End ExactFloats.

(* ================================================================== *)
(** * Further properties of the compositor *)

Section MoreCompositorFacts.

Context {platform : Platform}.
Variable lanczos : Image -> Z -> Z -> Z -> Z -> Pixel.

Lemma paste_subtitles_size (h0 sh tw : Z) (imgs : list Image) :
  forall (c c' : Image) (i : Z),
    paste_subtitles c h0 sh tw i imgs = Ok c' ->
    width c' = width c /\ height c' = height c.
Proof.
  induction imgs as [|img imgs IH]; intros c c' i; simpl.
  - by intros [= <-].
  - destruct (subtitle_band sh tw img) as [e|strip]; [done|]. simpl.
    intros Hp. by apply IH in Hp.
Qed.

Lemma new_size (w h : Z) (color : Pixel) (im : Image) :
  new w h color = Ok im -> width im = w /\ height im = h.
Proof.
  unfold new. destruct ((w <? 0) || (h <? 0)); [done|].
  destruct ((INT_MAX <? w) || (INT_MAX <? h)); [done|].
  destruct (refusal NewImage w h); [done|]. by intros [= <-].
Qed.

(** What a successful pass over lines 30-72 went through. *)
Lemma stack_images_inv (images : list Image) (ratio : num) (c : Composite) :
  stack_images lanczos images ratio = Ok c ->
  exists first rest rr,
    images = first :: rest /\
    resize_rest lanczos (width first) rest = Ok rr /\
    subtitle_height_of (height first) ratio = Ok (subtitle_height c) /\
    target_width c = width first /\
    total_height c =
      height first + subtitle_height c * (Z.of_nat (length images) - 1) /\
    width (new_image c) = target_width c /\
    height (new_image c) = total_height c.
Proof.
  destruct images as [|first rest]; [done|]. unfold stack_images.
  destruct (resize_rest lanczos (width first) rest) as [e|rr] eqn:Hrr; [done|].
  destruct (resize_rest_lookup _ _ _ _ Hrr) as [Hlen _].
  cbv beta iota zeta delta [rbind].
  destruct (subtitle_height_of (height first) ratio) as [e|sh] eqn:Hsh; [done|].
  destruct (new (width first) _ white) as [e|blank] eqn:Hnew; [done|].
  destruct (paste_subtitles _ _ _ _ _ _) as [e|canvas] eqn:Hp; [done|].
  intros [= <-]. simpl.
  exists first, rest, rr. split; [done|]. split; [done|]. split; [done|].
  split; [done|]. split; [by rewrite Hlen|].
  apply paste_subtitles_size in Hp as [Hw Hh]. simpl in Hw, Hh.
  apply new_size in Hnew as [Hbw Hbh].
  split; [congruence|]. by rewrite Hh, Hbh.
Qed.

Lemma resize_rest_same (tw : Z) (imgs : list Image) :
  Forall (fun img => width img = tw) imgs ->
  resize_rest lanczos tw imgs = Ok imgs.
Proof.
  induction 1 as [|img imgs Hw _ IH]; [done|]. simpl.
  by rewrite (normalize_same lanczos _ _ Hw), IH.
Qed.

Lemma resize_rest_fails (tw : Z) (imgs : list Image) (img : Image) (e0 : exn) :
  img ∈ imgs -> normalize lanczos tw img = Raise e0 ->
  exists e, resize_rest lanczos tw imgs = Raise e.
Proof.
  intros Hin Hn. induction imgs as [|img' imgs IH].
  - by apply elem_of_nil in Hin.
  - simpl. apply elem_of_cons in Hin as [<-|Hin].
    + rewrite Hn. by exists e0.
    + destruct (normalize lanczos tw img') as [e|r]; [by exists e|].
      destruct (IH Hin) as [e He]. rewrite He. by exists e.
Qed.

Lemma find_entry_listed (n : string) (d : Directory) :
  n ∈ d.*1 -> exists file, find_entry n d = Some file.
Proof.
  intros Hin. destruct (find_entry n d) as [file|] eqn:E; [by exists file|].
  by apply find_entry_None in E.
Qed.

(** Among listed names, the opening stops at the first file that does not
    open, which stands at or before any other that does not. *)
Lemma decode_all_first_failure (d : Directory) (files : list string)
    (f : string) (file : File) (e : exn) :
  (forall n, n ∈ files -> n ∈ d.*1) ->
  f ∈ files -> find_entry f d = Some file -> decoded file = Raise e ->
  exists l1 f' l2 file' e',
    files = l1 ++ f' :: l2 /\
    find_entry f' d = Some file' /\ decoded file' = Raise e' /\
    decode_all d files = Raise e' /\
    f ∈ f' :: l2.
Proof.
  intros Hlisted Hin Hf Hdec. induction files as [|n files IH].
  - by apply elem_of_nil in Hin.
  - destruct (find_entry_listed n d) as [file_n Hn].
    { apply Hlisted, list_elem_of_here. }
    destruct (decoded file_n) as [e_n|im] eqn:Hd.
    + exists [], n, files, file_n, e_n. simpl. rewrite Hn, Hd.
      by repeat split.
    + apply elem_of_cons in Hin as [->|Hin].
      { rewrite Hf in Hn. injection Hn as ->. rewrite Hdec in Hd. done. }
      destruct IH as (l1 & f' & l2 & file' & e' & -> & Hf' & Hd' & Hall & Hin');
        [|done|].
      { intros n' Hn'. by apply Hlisted, list_elem_of_further. }
      exists (n :: l1), f', l2, file', e'. simpl. rewrite Hn, Hd. simpl.
      rewrite Hall. by repeat split.
Qed.

Lemma find_entry_skip (n f : string) (file : File) (d1 d2 : Directory) :
  f <> n ->
  find_entry f (d1 ++ (n, file) :: d2) = find_entry f (d1 ++ d2).
Proof.
  intros Hne. induction d1 as [|[n1 f1] d1 IH]; simpl.
  - replace (String.eqb n f) with false; [done|].
    symmetry. apply String.eqb_neq. congruence.
  - by rewrite IH.
Qed.

Lemma decode_all_skip (n : string) (file : File) (d1 d2 : Directory)
    (files : list string) :
  n ∉ files ->
  decode_all (d1 ++ (n, file) :: d2) files = decode_all (d1 ++ d2) files.
Proof.
  induction files as [|f files IH]; [done|]. intros Hn.
  apply not_elem_of_cons in Hn as [Hne Hn]. simpl.
  rewrite find_entry_skip by congruence. by rewrite IH.
Qed.

Lemma png_files_skip (n : string) (l1 l2 : list string) :
  is_png n = false -> png_files (l1 ++ n :: l2) = png_files (l1 ++ l2).
Proof.
  intros Hn. unfold png_files. rewrite !List.filter_app. simpl.
  by rewrite Hn.
Qed.

(** Lines 20-72 do not look at the lock on the output path. *)
Lemma run_result_locked (listing : option Directory) (ratio : num) (e : exn) :
  run_result lanczos listing false ratio = Raise e ->
  forall locked, run_result lanczos listing locked ratio = Raise e.
Proof.
  unfold run_result. destruct listing as [d|]; [|done]. cbv zeta.
  destruct (length (png_files d.*1) <? 2)%nat; [done|].
  destruct (decode_all d (png_files d.*1)) as [e'|images]; [done|].
  cbv beta iota zeta delta [rbind].
  destruct (stack_images lanczos images ratio) as [e'|c]; [done|].
  unfold Ok, Raise. by intros [=].
Qed.

End MoreCompositorFacts.

(* ================================================================== *)
(** * Further properties of a run *)

Section MoreRunFacts.

Context {platform : Platform}.
Variable lanczos : Image -> Z -> Z -> Z -> Z -> Pixel.
Variables (input_folder output_path : string) (subtitle_ratio : num).

Local Abbreviation merge :=
  (merge_screenshots_with_subtitles lanczos input_folder output_path
     subtitle_ratio).

(** X1. A failure before the save leaves no trace: when lines 20-72 raise
    - the listing, the validation, the opening or the compositing - the
    run raises that exception and the world, its folders, saved images
    and console, is exactly as it was, whatever the output path and the
    console are. *)
Theorem failure_leaves_world (w : World) (e : exn) :
  run_result lanczos (dirs w !! input_folder) false subtitle_ratio = Raise e ->
  merge w = (Raise e, w).
Proof.
  intros Hfail. rewrite merge_spec.
  by rewrite (run_result_locked lanczos _ _ _ Hfail).
Qed.

(** X2. A run that succeeds gives back [None], had at least two PNG files
    to work on, saves one image under the output path and prints four
    lines; the names it prints are the sorted PNG files, and the size and
    subtitle height it prints are those of the image it saved. *)
Theorem success_effects (w w' : World) (r : PyObj) :
  merge w = (Ok r, w') ->
  r = PyNone /\
  exists d c first rest,
    dirs w !! input_folder = Some d /\
    (2 <= length (png_files d.*1))%nat /\
    (output_path ∉ unwritable w) /\
    decode_all d (png_files d.*1) = Ok (first :: rest) /\
    subtitle_height_of (height first) subtitle_ratio = Ok (subtitle_height c) /\
    height (new_image c) =
      height first +
      subtitle_height c * (Z.of_nat (length (png_files d.*1)) - 1) /\
    w' = finished w output_path (new_image c)
           [ PrintFiles (png_files d.*1);
             PrintSaved output_path;
             PrintSize (width (new_image c)) (height (new_image c));
             PrintSubtitle (subtitle_height c) subtitle_ratio ].
Proof.
  rewrite merge_spec. unfold run_result.
  destruct (dirs w !! input_folder) as [d|] eqn:Hd; [|done]. cbv zeta.
  destruct (length (png_files d.*1) <? 2)%nat eqn:Hlen; [done|].
  apply Nat.ltb_ge in Hlen.
  destruct (decode_all d (png_files d.*1)) as [e|images] eqn:Hdec; [done|].
  cbv beta iota zeta delta [rbind].
  destruct (stack_images lanczos images subtitle_ratio) as [e|c] eqn:Hc; [done|].
  destruct (bool_decide (output_path ∈ unwritable w)) eqn:Hw; [done|].
  apply bool_decide_eq_false in Hw.
  intros Hrun.
  pose proof (f_equal fst Hrun) as Hprinted.
  pose proof (f_equal snd Hrun) as Hw'. cbn [fst snd] in Hprinted, Hw'.
  apply printed_Ok in Hprinted as [-> Hlines]. rewrite Hlines in Hw'.
  subst w'.
  split; [done|].
  destruct (stack_images_inv lanczos _ _ _ Hc)
    as (first & rest & rr & -> & _ & Hsh & Htw & Htot & Hcw & Hch).
  exists d, c, first, rest. split; [done|]. split; [done|]. split; [done|].
  split; [done|]. split; [done|].
  rewrite (decode_all_length _ _ _ Hdec) in Htot.
  split; [congruence|].
  unfold report. by rewrite Hcw, Hch.
Qed.

(** X3. A PNG file that Pillow cannot open stops the run at line 27,
    wherever it stands in the order and whatever the ratio: the run raises
    what [Image.open] raises for such a file, the first of them in the
    order of the names, and nothing is saved or printed. *)
Theorem undecodable_file_stops (w : World) (d : Directory)
    (f : string) (file : File) (e : exn) :
  dirs w !! input_folder = Some d ->
  (2 <= length (png_files d.*1))%nat ->
  f ∈ png_files d.*1 -> find_entry f d = Some file -> decoded file = Raise e ->
  exists f' file' e',
    merge w = (Raise e', w) /\
    f' ∈ png_files d.*1 /\ find_entry f' d = Some file' /\
    decoded file' = Raise e' /\
    String.le f' f.
Proof.
  intros Hd Htwo Hin Hf Hdec.
  destruct (decode_all_first_failure d (png_files d.*1) f file e)
    as (l1 & f' & l2 & file' & e' & Hfiles & Hf' & Hd' & Hall & Hin');
    try done.
  { intros n Hn. by apply png_files_elem_of in Hn as [? _]. }
  exists f', file', e'. split; [|split; [|split; [done|split; [done|]]]].
  - rewrite (merge_run _ _ _ _ _ _ Hd). cbv zeta.
    replace (length (png_files d.*1) <? 2)%nat with false
      by (symmetry; apply Nat.ltb_ge; lia).
    unfold Raise in Hall. by rewrite Hall.
  - rewrite Hfiles. apply elem_of_app. right. apply list_elem_of_here.
  - pose proof (png_files_sorted d.*1) as Hsorted. rewrite Hfiles in Hsorted.
    apply StronglySorted_app_1_r, StronglySorted_cons in Hsorted
      as [Hle _].
    apply elem_of_cons in Hin' as [->|Hin']; [done|].
    by eapply Forall_forall in Hle.
Qed.

(** X4. A file whose name does not end in [.png] plays no part: with it or
    without it, wherever it is listed and whatever it holds, the run ends
    the same way, saves the same image and prints the same lines. *)
Theorem other_files_ignored (w1 w2 : World) (d1 d2 : Directory)
    (n : string) (file : File) :
  is_png n = false ->
  dirs w1 !! input_folder = Some (d1 ++ d2) ->
  dirs w2 !! input_folder = Some (d1 ++ (n, file) :: d2) ->
  unwritable w1 = unwritable w2 -> saved w1 = saved w2 ->
  console w1 = console w2 ->
  fst (merge w1) = fst (merge w2) /\
  saved (snd (merge w1)) = saved (snd (merge w2)) /\
  console (snd (merge w1)) = console (snd (merge w2)).
Proof.
  intros Hn Hd1 Hd2 Hro Hsv Hco.
  assert (Hfiles : png_files (d1 ++ (n, file) :: d2).*1 = png_files (d1 ++ d2).*1).
  { rewrite !fmap_app, fmap_cons. simpl. by apply png_files_skip. }
  assert (Hres : run_result lanczos (Some (d1 ++ (n, file) :: d2))
                   (bool_decide (output_path ∈ unwritable w2)) subtitle_ratio =
                 run_result lanczos (Some (d1 ++ d2))
                   (bool_decide (output_path ∈ unwritable w1)) subtitle_ratio).
  { unfold run_result. rewrite Hfiles, Hro, decode_all_skip; [done|].
    intros Hin. apply png_files_elem_of in Hin as [_ Hin]. congruence. }
  rewrite !merge_spec, Hd1, Hd2, Hres.
  destruct (run_result lanczos (Some (d1 ++ d2)) _ subtitle_ratio)
    as [e|[files c]]; cbn [fst snd saved console finished].
  - by repeat split.
  - by rewrite Hsv, Hco.
Qed.

(** X5. After the first loop every later image has the width of the first
    one, and no image was dropped or added. *)
Theorem normalized_widths (tw : Z) (imgs rs : list Image) :
  resize_rest lanczos tw imgs = Ok rs ->
  length rs = length imgs /\ Forall (fun r => width r = tw) rs.
Proof.
  intros Hrs. destruct (resize_rest_lookup _ _ _ _ Hrs) as [Hlen Hl].
  split; [done|]. apply Forall_lookup. intros k r Hk.
  apply Hl in Hk as (img & _ & Hn). by eapply normalize_width.
Qed.

(** X6. The canvas is covered entirely: every pixel of the saved image comes
    from the first image or from a band, so nothing of the white
    background is left to see. *)
Theorem canvas_covered (w : World) (d : Directory) (first : Image)
    (rest resized_rest : list Image) (sh : Z) :
  dirs w !! input_folder = Some d ->
  (2 <= length (png_files d.*1))%nat ->
  decode_all d (png_files d.*1) = Ok (first :: rest) ->
  resize_rest lanczos (width first) rest = Ok resized_rest ->
  0 < width first /\ 0 < height first ->
  output_path ∉ unwritable w ->
  (forall o, encodes o = true) ->
  subtitle_height_of (height first) subtitle_ratio = Ok sh -> 0 <= sh ->
  fits (width first)
    (height first + sh * (Z.of_nat (length (png_files d.*1)) - 1)) sh ->
  exists c,
    merge w = (Ok PyNone,
               finished w output_path (new_image c)
                 (report (png_files d.*1) output_path subtitle_ratio c)) /\
    forall x y, in_bounds (new_image c) x y = true ->
      (y < height first /\ px (new_image c) x y = px first x y) \/
      (exists (k : nat) (r : Image) (j : Z),
         resized_rest !! k = Some r /\ 0 <= j < sh /\
         y = height first + sh * Z.of_nat k + j /\
         px (new_image c) x y = px (band sh (width first) r) x j).
Proof.
  intros Hd Htwo Hopen Hresize Hsize Hwr Hcons Hsh Hsh0 Hfits.
  destruct (run_ok lanczos w input_folder output_path subtitle_ratio d first
              rest resized_rest Hd Htwo Hopen Hresize Hsize Hwr Hcons
              sh Hsh Hsh0 Hfits)
    as (c & Hrun & _ & _ & _ & _ & Hw & Hh & Hfirst & Hband).
  exists c. split; [done|]. intros x y Hin.
  apply in_bounds_true in Hin. rewrite Hw, Hh in Hin.
  destruct (Z_lt_le_dec y (height first)) as [Hy|Hy].
  - left. split; [done|]. apply Hfirst; lia.
  - right.
    pose proof (images_count d first rest Hopen) as Hcount.
    destruct (resize_rest_lookup _ _ _ _ Hresize) as [Hlen _].
    simpl length in Hcount.
    assert (Hsh1 : 0 < sh) by nia.
    pose proof (Z.div_mod (y - height first) sh ltac:(lia)) as Hdm.
    pose proof (Z.mod_pos_bound (y - height first) sh Hsh1) as Hmod.
    assert (Hk0 : 0 <= (y - height first) / sh) by (apply Z.div_pos; lia).
    assert (Hk1 : (y - height first) / sh < Z.of_nat (length resized_rest)).
    { apply Z.div_lt_upper_bound; [done|]. rewrite Hlen. nia. }
    destruct (lookup_lt_is_Some_2 resized_rest
                (Z.to_nat ((y - height first) / sh))) as [r Hr]; [lia|].
    exists (Z.to_nat ((y - height first) / sh)), r, ((y - height first) mod sh).
    split; [done|]. split; [done|].
    assert (Hy' : y = height first
                      + sh * Z.of_nat (Z.to_nat ((y - height first) / sh))
                      + (y - height first) mod sh).
    { rewrite Z2Nat.id by done. lia. }
    split; [done|]. rewrite Hy' at 1. apply Hband; [done|lia|done].
Qed.

(** X7. A ratio of zero, int or float, stops the run with
    [ZeroDivisionError] once the images are loaded and rescaled; nothing is
    saved. *)
Theorem zero_ratio_raises (w : World) (d : Directory) (first : Image)
    (rest resized_rest : list Image) :
  dirs w !! input_folder = Some d ->
  (2 <= length (png_files d.*1))%nat ->
  decode_all d (png_files d.*1) = Ok (first :: rest) ->
  resize_rest lanczos (width first) rest = Ok resized_rest ->
  0 < height first < 2 ^ 53 ->
  is_zero_ratio subtitle_ratio = true ->
  merge w = (Raise ZeroDivisionError, w).
Proof.
  intros Hd Htwo Hopen Hresize Hh Hzero.
  rewrite (merge_run _ _ _ _ _ _ Hd). cbv zeta.
  replace (length (png_files d.*1) <? 2)%nat with false
    by (symmetry; apply Nat.ltb_ge; lia).
  rewrite Hopen. cbv beta iota zeta delta [Ok].
  assert (Hs : stack_images lanczos (first :: rest) subtitle_ratio
               = Raise ZeroDivisionError).
  { unfold stack_images. rewrite Hresize. cbv beta iota zeta delta [rbind Ok].
    assert (Hsh : subtitle_height_of (height first) subtitle_ratio
                  = Raise ZeroDivisionError).
    { unfold subtitle_height_of. destruct subtitle_ratio as [b|y]; simpl in *.
      - unfold int_truediv. by rewrite Hzero.
      - destruct (float_of_int_exact (height first) Hh) as (mx & ex & -> & _).
        simpl. unfold float_truediv. by rewrite Hzero. }
    by rewrite Hsh. }
  unfold Raise in Hs. by rewrite Hs.
Qed.

(** X8. A ratio that is the float NaN stops the run with [ValueError], the
    one [int()] raises on NaN; nothing is saved. *)
Theorem nan_ratio_raises (w : World) (d : Directory) (first : Image)
    (rest resized_rest : list Image) :
  dirs w !! input_folder = Some d ->
  (2 <= length (png_files d.*1))%nat ->
  decode_all d (png_files d.*1) = Ok (first :: rest) ->
  resize_rest lanczos (width first) rest = Ok resized_rest ->
  0 < height first < 2 ^ 53 ->
  is_nan_ratio subtitle_ratio = true ->
  merge w = (Raise (ValueError "cannot convert float NaN to integer"), w).
Proof.
  intros Hd Htwo Hopen Hresize Hh Hnan.
  rewrite (merge_run _ _ _ _ _ _ Hd). cbv zeta.
  replace (length (png_files d.*1) <? 2)%nat with false
    by (symmetry; apply Nat.ltb_ge; lia).
  rewrite Hopen. cbv beta iota zeta delta [Ok].
  assert (Hs : stack_images lanczos (first :: rest) subtitle_ratio
               = Raise (ValueError "cannot convert float NaN to integer")).
  { unfold stack_images. rewrite Hresize. cbv beta iota zeta delta [rbind Ok].
    assert (Hsh : subtitle_height_of (height first) subtitle_ratio
                  = Raise (ValueError "cannot convert float NaN to integer")).
    { unfold subtitle_height_of.
      destruct subtitle_ratio as [b|[s|s| |s m e]]; try done. simpl.
      destruct (float_of_int_exact (height first) Hh) as (mx & ex & -> & _).
      done. }
    by rewrite Hsh. }
  unfold Raise in Hs. by rewrite Hs.
Qed.

(** X9. Scaling up by a whole factor is exact: an image whose width goes
    [k] times into the target width, [k >= 2], is resampled to exactly [k]
    times its height, when that size fits C ints and Pillow grants it. *)
Theorem integer_upscale_exact (k : Z) (img : Image) :
  2 <= k -> 0 < width img -> 0 < height img ->
  k * width img <= INT_MAX -> k * height img <= INT_MAX ->
  accepts Resize (k * width img) (k * height img) = true ->
  new_height (k * width img) img = Ok (k * height img) /\
  normalize lanczos (k * width img) img =
    Ok (mkImage (k * width img) (k * height img)
          (lanczos img (k * width img) (k * height img)) (zero img)).
Proof.
  intros Hk Hw Hh Hkw Hkh Hacc.
  assert (Hmax : INT_MAX < 2 ^ 53) by done.
  assert (Hnew : new_height (k * width img) img = Ok (k * height img)).
  { unfold new_height.
    destruct (int_truediv_exact (width img) k) as (m & e & Hdiv & He & Hm);
      [done|lia|lia|].
    rewrite Hdiv. cbv beta iota zeta delta [rbind Ok].
    destruct (int_mul_float_exact (height img) k m e) as (f & Hmul & Hint);
      [done|lia|lia|done|done|].
    unfold Ok in Hmul. rewrite Hmul. rewrite Hint. by rewrite Z.mul_comm. }
  split; [done|]. unfold normalize.
  replace (width img =? k * width img) with false
    by (symmetry; apply Z.eqb_neq; nia).
  simpl negb. cbv iota. rewrite Hnew. cbv beta iota zeta delta [rbind Ok].
  apply resize_ok; [nia|nia|nia|done].
Qed.

(** X10. A later image so flat that its rescaled height computes to less
    than one row stops the run: Pillow refuses the resize, and nothing is
    saved. *)
Theorem flat_image_raises (w : World) (d : Directory) (first img : Image)
    (rest : list Image) (h : Z) :
  dirs w !! input_folder = Some d ->
  (2 <= length (png_files d.*1))%nat ->
  decode_all d (png_files d.*1) = Ok (first :: rest) ->
  img ∈ rest -> width img <> width first ->
  new_height (width first) img = Ok h -> h < 1 ->
  normalize lanczos (width first) img =
    Raise (ValueError "height and width must be > 0") /\
  exists e, merge w = (Raise e, w).
Proof.
  intros Hd Htwo Hopen Hin Hw Hnew Hh.
  assert (Hn : normalize lanczos (width first) img =
               Raise (ValueError "height and width must be > 0")).
  { unfold normalize.
    replace (width img =? width first) with false
      by (symmetry; by apply Z.eqb_neq).
    simpl negb. cbv iota. rewrite Hnew. cbv beta iota zeta delta [rbind Ok].
    unfold resize.
    replace (width first =? width img) with false
      by (symmetry; apply Z.eqb_neq; lia).
    simpl andb. cbv iota.
    replace (h <? 1) with true by (symmetry; apply Z.ltb_lt; lia).
    by rewrite orb_true_r. }
  split; [done|].
  destruct (resize_rest_fails lanczos _ _ _ _ Hin Hn) as [e He].
  exists e. rewrite (merge_run _ _ _ _ _ _ Hd). cbv zeta.
  replace (length (png_files d.*1) <? 2)%nat with false
    by (symmetry; apply Nat.ltb_ge; lia).
  rewrite Hopen. cbv beta iota zeta delta [Ok].
  assert (Hs : stack_images lanczos (first :: rest) subtitle_ratio = Raise e).
  { unfold stack_images. by rewrite He. }
  unfold Raise in Hs. by rewrite Hs.
Qed.

End MoreRunFacts.

Section Kernels.

Context {platform : Platform}.
Variables (input_folder output_path : string) (subtitle_ratio : num).

(** X11. When every image already has the width of the first one, nothing is
    resampled: the later images go on as they are, and the run does not
    depend on the resampling filter at all. *)
Theorem same_width_no_resampling
    (lanczos other : Image -> Z -> Z -> Z -> Z -> Pixel)
    (w : World) (d : Directory) (first : Image) (rest : list Image) :
  dirs w !! input_folder = Some d ->
  decode_all d (png_files d.*1) = Ok (first :: rest) ->
  Forall (fun img => width img = width first) rest ->
  resize_rest lanczos (width first) rest = Ok rest /\
  merge_screenshots_with_subtitles lanczos input_folder output_path
    subtitle_ratio w =
  merge_screenshots_with_subtitles other input_folder output_path
    subtitle_ratio w.
Proof.
  intros Hd Hopen Hsame.
  split; [by apply resize_rest_same|].
  rewrite !(merge_run _ _ _ _ _ _ Hd). cbv zeta.
  destruct (length (png_files d.*1) <? 2)%nat; [done|].
  rewrite Hopen. cbv beta iota zeta delta [Ok].
  assert (Hs : stack_images lanczos (first :: rest) subtitle_ratio =
               stack_images other (first :: rest) subtitle_ratio).
  { unfold stack_images.
    by rewrite (resize_rest_same lanczos), (resize_rest_same other). }
  by rewrite Hs.
Qed.

End Kernels.

(** X12. The docstring's "the larger the number, the smaller the subtitle
    area": for int ratios the subtitle height never grows with the ratio,
    and it stays between 0 and the height of the first image. *)
Theorem larger_ratio_smaller_band (h r1 r2 : Z) :
  0 < h < 2 ^ 53 -> 0 < r1 <= r2 ->
  exists s1 s2,
    subtitle_height_of h (PyInt r1) = Ok s1 /\
    subtitle_height_of h (PyInt r2) = Ok s2 /\
    0 <= s2 <= s1 /\ s1 <= h.
Proof.
  intros Hh Hr. exists (h / r1), (h / r2).
  rewrite !subtitle_height_int_ratio by lia.
  split; [done|]. split; [done|]. split; [split|].
  - apply Z.div_pos; lia.
  - apply Z.div_le_compat_l; lia.
  - apply Z.div_le_upper_bound; [lia|]. nia.
Qed.

Section MoreLoopFacts.

Context {platform : Platform}.
Variable lanczos : Image -> Z -> Z -> Z -> Z -> Pixel.

(** X13. The first loop is idempotent: images it has rescaled to a width go
    through it again, for the same width, without being touched. *)
Theorem normalize_again (tw : Z) (imgs rs : list Image) :
  resize_rest lanczos tw imgs = Ok rs ->
  resize_rest lanczos tw rs = Ok rs.
Proof.
  intros Hrs. apply resize_rest_same.
  destruct (resize_rest_lookup _ _ _ _ Hrs) as [_ Hl].
  apply Forall_lookup. intros k r Hk.
  apply Hl in Hk as (img & _ & Hn). by eapply normalize_width.
Qed.

(** X14. An output path that cannot be opened for writing stops the run
    with [OSError] at the save, after all the compositing and before
    anything is printed; the world is left as it was. *)
Theorem unwritable_output_raises (input_folder output_path : string)
    (subtitle_ratio : num) (w : World) (d : Directory) (first : Image)
    (rest resized_rest : list Image) (sh : Z) :
  dirs w !! input_folder = Some d ->
  (2 <= length (png_files d.*1))%nat ->
  decode_all d (png_files d.*1) = Ok (first :: rest) ->
  resize_rest lanczos (width first) rest = Ok resized_rest ->
  0 < width first /\ 0 < height first ->
  subtitle_height_of (height first) subtitle_ratio = Ok sh -> 0 <= sh ->
  fits (width first)
    (height first + sh * (Z.of_nat (length (png_files d.*1)) - 1)) sh ->
  output_path ∈ unwritable w ->
  merge_screenshots_with_subtitles lanczos input_folder output_path
    subtitle_ratio w = (Raise OSError, w).
Proof.
  intros Hd Htwo Hopen Hresize Hsize Hsh Hsh0 Hfits Hlocked.
  rewrite <- (images_count d first rest Hopen) in Hfits.
  destruct (stack_images_ok lanczos first rest resized_rest subtitle_ratio sh)
    as (c & Hc & _); try done; try lia.
  rewrite (merge_run _ _ _ _ _ _ Hd). cbv zeta.
  replace (length (png_files d.*1) <? 2)%nat with false
    by (symmetry; apply Nat.ltb_ge; lia).
  rewrite Hopen. cbv beta iota zeta delta [Ok].
  unfold Ok in Hc. rewrite Hc. by rewrite bool_decide_true.
Qed.

End MoreLoopFacts.

(* ================================================================== *)
(** * The further properties on the sample folders *)

Section OnMoreSamples.

Import Sample MoreSamples.

Lemma failure_leaves_world_witness :
  merge_screenshots_with_subtitles nearest "shots" "out.png" (PyInt 3)
    (world broken) =
  (Raise UnidentifiedImageError, world broken).
Proof.
  apply (failure_leaves_world nearest "shots" "out.png" (PyInt 3)
           (world broken) UnidentifiedImageError).
  reflexivity.
Defined.

Lemma success_effects_witness :
  PyNone = PyNone /\
  exists d c first rest,
    dirs (world shots) !! "shots"%string = Some d /\
    (2 <= length (png_files d.*1))%nat /\
    ("out.png"%string ∉ unwritable (world shots)) /\
    decode_all d (png_files d.*1) = Ok (first :: rest) /\
    subtitle_height_of (height first) (PyInt 3) = Ok (subtitle_height c) /\
    height (new_image c) =
      height first +
      subtitle_height c * (Z.of_nat (length (png_files d.*1)) - 1) /\
    snd (run (PyInt 3) (world shots)) =
      finished (world shots) "out.png" (new_image c)
        [ PrintFiles (png_files d.*1);
          PrintSaved "out.png";
          PrintSize (width (new_image c)) (height (new_image c));
          PrintSubtitle (subtitle_height c) (PyInt 3) ].
Proof.
  assert (Hrun : fst (run (PyInt 3) (world shots)) = Ok PyNone)
    by reflexivity.
  apply (success_effects nearest "shots" "out.png" (PyInt 3) (world shots)
           (snd (run (PyInt 3) (world shots))) PyNone).
  rewrite <- Hrun. apply surjective_pairing.
Defined.

(** In the folder [broken] two files do not open; the run raises what
    the first of them raises. *)
Lemma undecodable_file_stops_witness :
  exists f' file' e',
    merge_screenshots_with_subtitles nearest "shots" "out.png" (PyInt 3)
      (world broken) = (Raise e', world broken) /\
    f' ∈ png_files broken.*1 /\ find_entry f' broken = Some file' /\
    decoded file' = Raise e' /\
    String.le f' "c.png".
Proof.
  apply (undecodable_file_stops nearest "shots" "out.png" (PyInt 3)
           (world broken) broken "c.png" (mkFile 0 (Raise IsADirectoryError))
           IsADirectoryError
           eq_refl ltac:(vm_compute; lia)
           ltac:(apply (bool_decide_unpack _); by vm_compute)
           eq_refl eq_refl).
Defined.

Lemma other_files_ignored_witness :
  fst (run (PyInt 3) (world shots_only)) = fst (run (PyInt 3) (world shots)) /\
  saved (snd (run (PyInt 3) (world shots_only))) =
    saved (snd (run (PyInt 3) (world shots))) /\
  console (snd (run (PyInt 3) (world shots_only))) =
    console (snd (run (PyInt 3) (world shots))).
Proof.
  apply (other_files_ignored nearest "shots" "out.png" (PyInt 3)
           (world shots_only) (world shots)
           [ ("b.PNG"%string, mkFile 30 (Ok img_b)) ]
           [ ("c.png"%string, mkFile 10 (Ok img_c));
             ("a.png"%string, mkFile 20 (Ok img_a)) ]
           "notes.txt" (mkFile 5 (Raise UnidentifiedImageError))
           eq_refl eq_refl eq_refl eq_refl eq_refl eq_refl).
Defined.

Lemma normalized_widths_witness :
  length [img_b; img_c_resized] = length [img_b; img_c] /\
  Forall (fun r => width r = 4) [img_b; img_c_resized].
Proof.
  apply (normalized_widths (platform := desktop) nearest 4 [img_b; img_c]
           [img_b; img_c_resized] eq_refl).
Defined.

Lemma canvas_covered_witness :
  exists c,
    run (PyInt 3) (world shots) =
      (Ok PyNone,
       finished (world shots) "out.png" (new_image c)
         (report (png_files shots.*1) "out.png" (PyInt 3) c)) /\
    forall x y, in_bounds (new_image c) x y = true ->
      (y < 6 /\ px (new_image c) x y = px img_a x y) \/
      (exists (k : nat) (r : Image) (j : Z),
         [img_b; img_c_resized] !! k = Some r /\ 0 <= j < 2 /\
         y = 6 + 2 * Z.of_nat k + j /\
         px (new_image c) x y = px (band 2 4 r) x j).
Proof.
  apply (canvas_covered nearest "shots" "out.png" (PyInt 3) (world shots)
           shots img_a [img_b; img_c] [img_b; img_c_resized] 2
           eq_refl ltac:(vm_compute; lia) eq_refl eq_refl
           ltac:(simpl; lia) ltac:(apply not_elem_of_nil) (fun _ => eq_refl)
           eq_refl ltac:(lia) ltac:(repeat split; by vm_compute)).
Defined.

Lemma zero_ratio_raises_witness :
  run (PyFloat (S754_zero true)) (world shots) =
  (Raise ZeroDivisionError, world shots).
Proof.
  apply (zero_ratio_raises nearest "shots" "out.png" (PyFloat (S754_zero true))
           (world shots) shots img_a [img_b; img_c] [img_b; img_c_resized]
           eq_refl ltac:(vm_compute; lia) eq_refl eq_refl
           ltac:(simpl; lia) eq_refl).
Defined.

Lemma nan_ratio_raises_witness :
  run (PyFloat S754_nan) (world shots) =
  (Raise (ValueError "cannot convert float NaN to integer"), world shots).
Proof.
  apply (nan_ratio_raises nearest "shots" "out.png" (PyFloat S754_nan)
           (world shots) shots img_a [img_b; img_c] [img_b; img_c_resized]
           eq_refl ltac:(vm_compute; lia) eq_refl eq_refl
           ltac:(simpl; lia) eq_refl).
Defined.

Lemma integer_upscale_exact_witness :
  new_height (2 * 2) img_c = Ok (2 * 3) /\
  normalize nearest (2 * 2) img_c =
    Ok (mkImage (2 * 2) (2 * 3) (nearest img_c (2 * 2) (2 * 3)) black).
Proof.
  apply (integer_upscale_exact (platform := desktop) nearest 2 img_c
           ltac:(lia) ltac:(simpl; lia) ltac:(simpl; lia)
           ltac:(by vm_compute) ltac:(by vm_compute) eq_refl).
Defined.

Lemma flat_image_raises_witness :
  normalize nearest 800 img_flat =
    Raise (ValueError "height and width must be > 0") /\
  exists e,
    merge_screenshots_with_subtitles nearest "shots" "out.png" (PyInt 6)
      (world flat_shots) =
    (Raise e, world flat_shots).
Proof.
  apply (flat_image_raises nearest "shots" "out.png" (PyInt 6)
           (world flat_shots) flat_shots img_ref img_flat [img_flat] 0
           eq_refl ltac:(vm_compute; lia) eq_refl
           ltac:(apply list_elem_of_here) ltac:(simpl; lia)
           eq_refl ltac:(lia)).
Defined.

Lemma same_width_no_resampling_witness :
  resize_rest nearest 4 [img_b] = Ok [img_b] /\
  merge_screenshots_with_subtitles nearest "shots" "out.png" (PyInt 3)
    (world even) =
  merge_screenshots_with_subtitles blackout "shots" "out.png" (PyInt 3)
    (world even).
Proof.
  apply (same_width_no_resampling "shots" "out.png" (PyInt 3)
           nearest blackout (world even) even img_a [img_b]
           eq_refl eq_refl).
  by repeat constructor.
Defined.

Lemma larger_ratio_smaller_band_witness :
  exists s1 s2,
    subtitle_height_of 600 (PyInt 5) = Ok s1 /\
    subtitle_height_of 600 (PyInt 6) = Ok s2 /\
    0 <= s2 <= s1 /\ s1 <= 600.
Proof.
  apply (larger_ratio_smaller_band 600 5 6 ltac:(lia) ltac:(lia)).
Defined.

Lemma normalize_again_witness :
  resize_rest nearest 4 [img_b; img_c_resized] = Ok [img_b; img_c_resized].
Proof.
  apply (normalize_again (platform := desktop) nearest 4 [img_b; img_c]
           [img_b; img_c_resized] eq_refl).
Defined.

Lemma unwritable_output_raises_witness :
  merge_screenshots_with_subtitles nearest "shots" "out.png" (PyInt 3)
    locked_world =
  (Raise OSError, locked_world).
Proof.
  apply (unwritable_output_raises nearest "shots" "out.png" (PyInt 3)
           locked_world shots img_a [img_b; img_c] [img_b; img_c_resized] 2
           eq_refl ltac:(vm_compute; lia) eq_refl eq_refl
           ltac:(simpl; lia) eq_refl ltac:(lia)
           ltac:(repeat split; by vm_compute)
           ltac:(apply list_elem_of_here)).
Defined.

(** A ratio of one billionth asks for bands of 6000000000 rows; the
    canvas would be higher than a C int holds, and line 53 raises before
    anything is pasted or saved. *)
Example canvas_too_large :
  subtitle_height_of 6 (PyFloat one_billionth) = Ok 6000000000 /\
  run (PyFloat one_billionth) (world shots) = (Raise OverflowError, world shots).
Proof. split; reflexivity. Qed.

(** A narrow image under a wide first one: the rescaled height
    2500000000 is more than a C int holds, and line 40 raises. *)
Example resize_too_large :
  new_height 50000 img_thin = Ok 2500000000 /\
  normalize nearest 50000 img_thin = Raise OverflowError.
Proof. split; reflexivity. Qed.

(** The report is printed after the save: on a console that cannot encode
    it, the run raises at line 76 with the canvas saved and nothing
    printed. *)
Example print_fails_after_save :
  let after :=
    merge_screenshots_with_subtitles (platform := legacy_console) nearest
      "shots" "out.png" (PyInt 3) (world shots) in
  fst after = Raise UnicodeEncodeError /\
  saved (snd after) = saved (snd (run (PyInt 3) (world shots))) /\
  length (saved (snd after)) = 1%nat /\
  console (snd after) = [].
Proof. repeat split; reflexivity. Qed.

End OnMoreSamples.
